(** * research-scraper: the three conference adapters

    A shallow embedding of [papers_scrapper/spiders/ndss.py], [osdi.py] and
    [usenix.py], and the properties of their page handlers.

    Conventions of the embedding.
    - A Python [str] is a [string]; a character stands for a code point
      below 256.  A value that may be [None] (the result of [.get()]) is an
      [option string].
    - A handler is a generator that logs and yields.  It is embedded as the
      list of its events in program order together with the way it ends:
      normally, or with an exception.
    - The crawling framework is not part of the repository.  A fetched page
      is its URL, status, carried context and the answers of its document to
      XPath queries.  Joining URLs, escaping the URL of a request, compiling
      an XPath expression built at run time and parsing an HTML fragment are
      operations of the interface [Framework]; joining, building a request
      and evaluating such an expression can raise [ValueError]. *)

From Stdlib Require Import String Ascii List ZArith Bool Lia.
From stdpp Require Import base option list gmap strings pretty.

Local Open Scope string_scope.
Local Open Scope list_scope.

(** ** Python built-ins used by the adapters *)

Module Py.

(** Truth value of a [str], of an optional [str] and of a list. *)
Definition truthy_str (s : string) : bool := negb (String.eqb s "").

Definition truthy (o : option string) : bool :=
  match o with
  | Some s => truthy_str s
  | None => false
  end.

Definition truthy_list {A} (l : list A) : bool :=
  match l with
  | [] => false
  | _ :: _ => true
  end.

(** [str.isspace] on one character. *)
Definition isspace (c : ascii) : bool :=
  let n := nat_of_ascii c in
  (((9 <=? n) && (n <=? 13)) || ((28 <=? n) && (n <=? 32))
   || (n =? 133) || (n =? 160))%nat.

Fixpoint lstrip (s : string) : string :=
  match s with
  | EmptyString => EmptyString
  | String c s' => if isspace c then lstrip s' else s
  end.

Fixpoint rstrip (s : string) : string :=
  match s with
  | EmptyString => EmptyString
  | String c s' =>
      match rstrip s' with
      | EmptyString => if isspace c then EmptyString else String c EmptyString
      | r => String c r
      end
  end.

(** [s.strip()] *)
Definition strip (s : string) : string := rstrip (lstrip s).

(** [sub in s] *)
Fixpoint contains (sub s : string) : bool :=
  String.prefix sub s ||
  match s with
  | EmptyString => false
  | String _ s' => contains sub s'
  end.

(** [s.replace(old, new)]: every occurrence of [old], scanning from the
    left, occurrences not overlapping.  [skip] counts the characters of a
    matched occurrence still to be dropped. *)
Fixpoint replace_from (old new : string) (skip : nat) (s : string) : string :=
  match s with
  | EmptyString => EmptyString
  | String c s' =>
      match skip with
      | S k => replace_from old new k s'
      | O =>
          if String.prefix old s
          then new +:+ replace_from old new (String.length old - 1) s'
          else String c (replace_from old new 0 s')
      end
  end.

Fixpoint intersperse (new s : string) : string :=
  match s with
  | EmptyString => new
  | String c s' => new +:+ String c (intersperse new s')
  end.

Definition replace (old new s : string) : string :=
  match old with
  | EmptyString => intersperse new s
  | String _ _ => replace_from old new 0 s
  end.

(** [s.find(sub)], with [None] for -1. *)
Fixpoint find (sub s : string) : option nat :=
  if String.prefix sub s then Some 0
  else match s with
       | EmptyString => None
       | String _ s' => option_map S (find sub s')
       end.

(** [s.removesuffix(suffix)] *)
Definition removesuffix (suffix s : string) : string :=
  let n := String.length s - String.length suffix in
  if String.eqb (String.substring n (String.length suffix) s) suffix
  then String.substring 0 n s
  else s.

(** [sep.join(l)] *)
Definition join (sep : string) (l : list string) : string := String.concat sep l.

(** [str(len(l))] and [str(n)] in an f-string. *)
Definition str_nat (n : nat) : string := pretty n.
Definition str_int (z : Z) : string := pretty z.

(** An optional [str] in an f-string. *)
Definition str_opt (o : option string) : string :=
  match o with
  | Some s => s
  | None => "None"
  end.

Inductive Exception : Type :=
| ValueError (msg : string)
| TypeError (msg : string)
| AttributeError (msg : string)
| KeyError (key : string).

End Py.

Export Py(Exception, ValueError, TypeError, AttributeError, KeyError).

(** ** Records, requests and generators *)

(** A Python value as a record field or an entry of a carried context can
    hold it: an [int], a [str] or a [bool]. *)
Inductive PyVal : Type :=
| PyInt (z : Z)
| PyStr (s : string)
| PyBool (b : bool).

(** A value in an f-string. *)
Definition str_val (v : PyVal) : string :=
  match v with
  | PyInt z => Py.str_int z
  | PyStr s => s
  | PyBool true => "True"
  | PyBool false => "False"
  end.

(** Modelled from the spec: [items.PdfFilesItem], the Paper Record with its
    seven fields; the item-schema declaration is not among the sources.
    Every adapter stores a [str] in [pdf_url] and a list of [str] in
    [file_urls]; the other fields hold what the adapter assigns. *)
Record PdfFilesItem : Type := mkItem {
  title : PyVal;
  authors : PyVal;
  abstract : PyVal;
  abstract_url : PyVal;
  pdf_url : string;
  file_urls : list string;
  source_url : PyVal
}.

(** The handlers a request can name as its callback. *)
Inductive Callback : Type :=
| ndss_parse | ndss_parse_year_page | ndss_parse_paper_list | ndss_parse_paper_details
| osdi_parse | osdi_parse_paper
| usenix_parse | usenix_parse_presentation.

(** A [scrapy.Request]: target, callback, carried context ([meta], a dict
    from field name to value) and the request flag [dont_filter]. *)
Record Request : Type := mkRequest {
  req_url : string;
  req_callback : Callback;
  req_meta : gmap string PyVal;
  req_dont_filter : bool
}.

Inductive Output : Type :=
| OutRequest (r : Request)
| OutItem (i : PdfFilesItem).

Inductive Level : Type := DEBUG | INFO | WARNING | ERROR.

Inductive Event : Type :=
| Yield (o : Output)
| Log (lvl : Level) (msg : string).

(** A generator run to its end: the events it produced, then its result or
    the exception that ended it. *)
Definition Gen (A : Type) : Type := (list Event * (Exception + A))%type.

Definition ret {A} (a : A) : Gen A := ([], inr a).

Definition raise {A} (e : Exception) : Gen A := ([], inl e).

Definition bind {A B} (m : Gen A) (f : A -> Gen B) : Gen B :=
  match m with
  | (es, inl e) => (es, inl e)
  | (es, inr a) => let '(es', r) := f a in (es ++ es', r)
  end.

Notation "x <- m ;; k" := (bind m (fun x => k))
  (at level 100, m at next level, right associativity).
Notation "m ;; k" := (bind m (fun _ => k))
  (at level 100, right associativity).

Definition yield (o : Output) : Gen unit := ([Yield o], inr tt).

Definition log (lvl : Level) (msg : string) : Gen unit := ([Log lvl msg], inr tt).

(** [for x in l: body] *)
Fixpoint for_each {A} (l : list A) (body : A -> Gen unit) : Gen unit :=
  match l with
  | [] => ret tt
  | x :: l' => body x ;; for_each l' body
  end.

(** What an observer of a run sees. *)
Definition events {A} (g : Gen A) : list Event := fst g.

Definition outcome {A} (g : Gen A) : Exception + A := snd g.

Definition returns {A} (g : Gen A) : Prop := exists a, outcome g = inr a.

Definition yielded_of (es : list Event) : list Output :=
  omap (fun e => match e with Yield o => Some o | Log _ _ => None end) es.

Definition yielded {A} (g : Gen A) : list Output := yielded_of (events g).

Definition requests {A} (g : Gen A) : list Request :=
  omap (fun o => match o with OutRequest r => Some r | OutItem _ => None end) (yielded g).

Definition records {A} (g : Gen A) : list PdfFilesItem :=
  omap (fun o => match o with OutItem i => Some i | OutRequest _ => None end) (yielded g).

Definition logged {A} (lvl : Level) (g : Gen A) : list string :=
  omap (fun e => match e with
                 | Log l msg => match l, lvl with
                                | DEBUG, DEBUG | INFO, INFO
                                | WARNING, WARNING | ERROR, ERROR => Some msg
                                | _, _ => None
                                end
                 | Yield _ => None
                 end) (events g).

(** ** Fetched pages *)

(** A [Selector]: its serialised value ([.get()]) and the answers of its
    subtree to XPath queries. *)
#[warnings="-register-all"]
Inductive Selector : Type := mkSelector {
  sel_get : string;
  sel_xpath : string -> list Selector
}.

(** [.get()] and [.getall()] on a selector list. *)
Definition get (l : list Selector) : option string := head (map sel_get l).

Definition getall (l : list Selector) : list string := map sel_get l.

(** A [Response]: [response.url], [response.status], [response.meta] and
    [response.xpath]. *)
Record Response : Type := mkResponse {
  url : string;
  status : Z;
  meta : gmap string PyVal;
  xpath : string -> list Selector
}.

(** The operations of the crawling framework and of the Python runtime that
    the adapters call and the repository does not define. *)
Class Framework : Type := {
  (** [response.urljoin(link)]: the link joined with the base URL of the
      page, or the [ValueError] raised on a link that cannot be parsed *)
  urljoin : Response -> string -> Exception + string;
  (** the URL as a [scrapy.Request] stores it, with its unsafe characters
      escaped, or the [ValueError] raised on a URL that cannot be taken
      apart *)
  safe_url : string -> Exception + string;
  (** whether [response.xpath] compiles an expression; it raises
      [ValueError] on one it does not *)
  xpath_compiles : string -> bool;
  (** [scrapy.Selector(text=html)] *)
  Selector_of_text : string -> Selector;
  (** a list of [str] in an f-string *)
  str_list : list string -> string
}.

(** The string-cleanup helpers of [BaseSpider]: quote normalisation,
    HTML-tag stripping and whitespace normalisation.  [base_spider.py] is not
    among the sources, so the three helpers are parameters. *)
Class Helpers : Type := {
  clean_quotes : string -> string;
  clean_html_tags : string -> string;
  clean_extra_whitespaces : string -> string
}.

(** Modelled from the spec: the shared initialisation contract of
    [BaseSpider.__init__], which keeps the conference name and the year. *)
Record Spider : Type := mkSpider {
  conference : string;
  year : string
}.

Definition BaseSpider_init (conference year : string) : Exception + Spider :=
  inr {| conference := conference; year := year |}.

(** The double quote, for XPath expressions. *)
Definition dq : string := String (ascii_of_nat 34) EmptyString.

(** A [None] used where a [str] is required: as the receiver of a method
    call, as the right operand of [in], or as a [str] argument. *)
Definition receiver (o : option string) : Gen string :=
  match o with
  | Some s => ret s
  | None => raise (AttributeError "'NoneType' object has no attribute")
  end.

Definition str_in (sub : string) (o : option string) : Gen bool :=
  match o with
  | Some s => ret (Py.contains sub s)
  | None => raise (TypeError "argument of type 'NoneType' is not iterable")
  end.

Definition the_str (o : option string) : Gen string :=
  match o with
  | Some s => ret s
  | None => raise (TypeError "expected str, got NoneType")
  end.

(** [d[key]] on a dict. *)
Definition getitem (d : gmap string PyVal) (key : string) : Gen PyVal :=
  match d !! key with
  | Some v => ret v
  | None => raise (KeyError key)
  end.

(** The result of a call into the framework, inside a generator. *)
Definition lift {A} (r : Exception + A) : Gen A := ([], r).

Section Requests.
Context {F : Framework}.

(** The test [scrapy.Request] makes on the URL it stores: it holds [://] or
    starts with [about:] or [data:]. *)
Definition accepted_scheme (url : string) : bool :=
  Py.contains "://" url || String.prefix "about:" url || String.prefix "data:" url.

(** The URL a request for [url] stores: the escaped URL when that has a
    scheme, and a [ValueError] otherwise. *)
Definition Request_url (url : string) : Exception + string :=
  match safe_url url with
  | inl e => inl e
  | inr stored =>
      if accepted_scheme stored then inr stored
      else inl (ValueError ("Missing scheme in request url: " +:+ stored))
  end.

(** [scrapy.Request(url=..., callback=..., meta=..., dont_filter=...)] *)
Definition scrapy_Request (url : string) (callback : Callback)
    (meta : gmap string PyVal) (dont_filter : bool) : Gen Request :=
  stored <- lift (Request_url url) ;;
  ret {| req_url := stored; req_callback := callback; req_meta := meta;
         req_dont_filter := dont_filter |}.

(** [response.follow(link, callback=..., meta=..., dont_filter=...)]: a
    request for the link joined with the page's URL. *)
Definition follow (response : Response) (link : string) (callback : Callback)
    (meta : gmap string PyVal) (dont_filter : bool) : Gen Request :=
  url <- lift (urljoin response link) ;;
  scrapy_Request url callback meta dont_filter.

(** [response.xpath(expression)] for an expression built at run time. *)
Definition xpath_built (response : Response) (expression : string)
    : Gen (list Selector) :=
  if xpath_compiles expression then ret (xpath response expression)
  else raise (ValueError ("XPath error: Invalid expression in " +:+ expression)).

End Requests.

(** ** Adapter A: [ndss.py] *)

Module NDSS.
Section Handlers.
Context {F : Framework} {H : Helpers}.

Definition name : string := "ndss".

Definition allowed_domains : list string := ["ndss-symposium.org"].

Definition start_urls : list string :=
  ["https://www.ndss-symposium.org/previous-ndss-symposia/"].

(** [NDSSSpider.__init__(conference='ndss', year='')] *)
Definition init (conference year : option string) : Exception + Spider :=
  let conference := default "ndss" conference in
  let year := default "" year in
  match BaseSpider_init conference year with
  | inl e => inl e
  | inr self =>
      if negb (Py.truthy_str year)
      then inl (ValueError "The 'year' argument is required. Usage: scrapy crawl ndss -a year=YYYY")
      else inr self
  end.

Definition start_requests (self : Spider) : Gen unit :=
  for_each start_urls (fun url =>
    log INFO ("Start scraping " +:+ url +:+ " for " +:+ year self) ;;
    request <- scrapy_Request url ndss_parse ∅ false ;;
    yield (OutRequest request)).

Definition year_link_xpath (self : Spider) : string :=
  "//a[contains(@class, " +:+ dq +:+ "wp-block-button__link" +:+ dq
  +:+ ") and normalize-space()=" +:+ dq +:+ year self +:+ dq +:+ "]/@href".

(** Step 1: the link for the target year on the landing page. *)
Definition parse (self : Spider) (response : Response) : Gen unit :=
  log INFO ("Searching for year " +:+ year self +:+ " on " +:+ url response) ;;
  anchors <- xpath_built response (year_link_xpath self) ;;
  let year_link := get anchors in
  log DEBUG ("Year link found with primary XPat: " +:+ Py.str_opt year_link) ;;
  (if Py.truthy year_link then
     log INFO ("Found link for " +:+ year self +:+ ": " +:+ Py.str_opt year_link) ;;
     link <- the_str year_link ;;
     request <- follow response link ndss_parse_year_page
                  {["year" := PyStr (year self)]} false ;;
     yield (OutRequest request)
   else
     log ERROR ("Could not find a link for the year " +:+ year self
                +:+ " on the main page.")).

Definition paper_links_xpath : string :=
  "//a[@class=" +:+ dq +:+ "paper-link-abs" +:+ dq +:+ "]/@href".

Definition read_more_xpath : string :=
  "//a[strong[text()=" +:+ dq +:+ "Read More" +:+ dq +:+ "]]/@href".

(** Step 3: the links to the detail pages on the list of accepted papers. *)
Definition parse_paper_list (self : Spider) (response : Response) : Gen unit :=
  log INFO ("Parsing paper list on " +:+ url response) ;;
  let links := getall (xpath response paper_links_xpath) in
  links <- (if negb (Py.truthy_list links) then
              log INFO "Primary selector failed, trying fallback selector for older years." ;;
              ret (getall (xpath response read_more_xpath))
            else ret links) ;;
  (if negb (Py.truthy_list links) then
     log ERROR ("Could not find any paper detail links on " +:+ url response
                +:+ ". Spider stopping.")
   else
     log INFO ("Found " +:+ Py.str_nat (length links) +:+ " paper links to follow.") ;;
     for_each links (fun link =>
       request <- follow response link ndss_parse_paper_details
                    (meta response) false ;;
       yield (OutRequest request))).

Definition accepted_papers_xpath : string :=
  "//a[strong[contains(text(), " +:+ dq +:+ "Accepted Papers" +:+ dq +:+ ")]]/@href".

(** Step 2: the link to the accepted papers on the year's page. *)
Definition parse_year_page (self : Spider) (response : Response) : Gen unit :=
  log INFO ("Searching for 'Accepted Papers' link on " +:+ url response) ;;
  let accepted_papers_link := get (xpath response accepted_papers_xpath) in
  (if Py.truthy accepted_papers_link then
     link <- the_str accepted_papers_link ;;
     request <- follow response link ndss_parse_paper_list (meta response) false ;;
     yield (OutRequest request)
   else
     log WARNING ("No 'Accepted Papers' link found on " +:+ url response
                  +:+ ". Assuming this is the paper list page and proceeding.") ;;
     parse_paper_list self response).

Definition og_title_xpath : string :=
  "//meta[@property=" +:+ dq +:+ "og:title" +:+ dq +:+ "]/@content".

Definition ndss_authors_xpath : string :=
  "//p[@class=" +:+ dq +:+ "ndss_authors" +:+ dq +:+ "]//text()".

Definition abstract_heading_xpath : string :=
  "//h2[contains(text(), " +:+ dq +:+ "Abstract" +:+ dq
  +:+ ")]/following-sibling::p/text()".

Definition pdf_button_xpath : string :=
  "//a[contains(@class, " +:+ dq +:+ "pdf-button" +:+ dq +:+ ")]/@href".

Definition ndss_downloads_xpath : string :=
  "//p[@class=" +:+ dq +:+ "ndss_downloads" +:+ dq +:+ "]//a/@href".

(** Step 4: the fields of the record on the detail page. *)
Definition parse_paper_details (self : Spider) (response : Response) : Gen unit :=
  log INFO ("Extracting details from " +:+ url response) ;;
  let title := get (xpath response og_title_xpath) in
  let authors := get (xpath response "//p/strong/text()") in
  fallback <- (if negb (Py.truthy authors) then ret true
               else found <- str_in "(" authors ;; ret (negb found)) ;;
  let authors :=
    if (fallback : bool) then
      let authors_raw := getall (xpath response ndss_authors_xpath) in
      Some (Py.strip (Py.replace "Author(s):" "" (Py.join "" authors_raw)))
    else authors in
  let abstract_parts := getall (xpath response "//strong/following-sibling::p/text()") in
  let abstract_parts :=
    if negb (Py.truthy_list abstract_parts)
    then getall (xpath response abstract_heading_xpath)
    else abstract_parts in
  let abstract := Py.join " " (map Py.strip abstract_parts) in
  let pdf_url := get (xpath response pdf_button_xpath) in
  let pdf_url :=
    if negb (Py.truthy pdf_url)
    then get (xpath response ndss_downloads_xpath)
    else pdf_url in
  item_title <- (if Py.truthy title then
                   t <- receiver title ;;
                   ret (clean_quotes (Py.strip (Py.replace "- NDSS Symposium" "" t)))
                 else ret "") ;;
  item_authors <- (if Py.truthy authors then
                     a <- the_str authors ;;
                     ret (Py.strip (clean_html_tags a))
                   else ret "") ;;
  let item_abstract :=
    if Py.truthy_str abstract then clean_extra_whitespaces abstract else "" in
  full_pdf_url <- (if Py.truthy pdf_url then
                     link <- the_str pdf_url ;;
                     lift (urljoin response link)
                   else ret "") ;;
  yield (OutItem {| title := PyStr item_title;
                    authors := PyStr item_authors;
                    abstract := PyStr item_abstract;
                    abstract_url := PyStr (url response);
                    pdf_url := full_pdf_url;
                    file_urls := if Py.truthy_str full_pdf_url then [full_pdf_url] else [];
                    source_url := PyInt 13 |}).

End Handlers.
End NDSS.

(** ** Adapter B: [osdi.py] *)

Module OSDI.
Section Handlers.
Context {F : Framework} {H : Helpers}.

Definition name : string := "osdi".

Definition allowed_domains : list string := ["usenix.org"].

Definition start_urls : list string :=
  ["https://www.usenix.org/conference/osdi23/technical-sessions"].

(** [OsdiSpider.__init__(conference='osdi', year='2023')] *)
Definition init (conference year : option string) : Exception + Spider :=
  let conference := default "osdi" conference in
  let year := default "2023" year in
  BaseSpider_init conference year.

Definition start_requests (self : Spider) : Gen unit :=
  for_each start_urls (fun url =>
    log INFO ("Start scraping " +:+ url +:+ " for " +:+ year self) ;;
    request <- scrapy_Request url osdi_parse ∅ true ;;
    yield (OutRequest request)).

Definition meta_xpath (name : string) : string :=
  "//meta[@name=" +:+ dq +:+ name +:+ dq +:+ "]/@content".

Definition parse_paper (self : Spider) (response : Response) : Gen unit :=
  let title := get (xpath response (meta_xpath "citation_title")) in
  let authors := getall (xpath response (meta_xpath "citation_author")) in
  let abstract := get (xpath response (meta_xpath "description")) in
  let pdf_url := get (xpath response (meta_xpath "citation_pdf_url")) in
  item_title <- (if Py.truthy title then
                   t <- the_str title ;; ret (clean_html_tags t)
                 else ret "") ;;
  let item_authors := if Py.truthy_list authors then Py.join ", " authors else "" in
  item_abstract <- (if Py.truthy abstract then
                      a <- the_str abstract ;; ret (clean_html_tags a)
                    else ret "") ;;
  item_file_urls <- (if Py.truthy pdf_url then
                       p <- the_str pdf_url ;; ret [p]
                     else ret []) ;;
  item_pdf_url <- (if Py.truthy pdf_url then the_str pdf_url else ret "") ;;
  yield (OutItem {| title := PyStr item_title;
                    authors := PyStr item_authors;
                    abstract := PyStr item_abstract;
                    abstract_url := PyStr (url response);
                    pdf_url := item_pdf_url;
                    file_urls := item_file_urls;
                    source_url := PyStr (url response) |}).

Definition presentation_links_xpath : string :=
  "//a[contains(@href, " +:+ dq +:+ "/presentation" +:+ dq
  +:+ ") or contains(@href, " +:+ dq +:+ "/presentations" +:+ dq +:+ ")]/@href".

Definition parse (self : Spider) (response : Response) : Gen unit :=
  log INFO ("Successfully fetched page: " +:+ url response) ;;
  let paper_links := getall (xpath response presentation_links_xpath) in
  (if Py.truthy_list paper_links then
     log INFO ("Found " +:+ Py.str_nat (length paper_links) +:+ " research paper links") ;;
     for_each paper_links (fun paper_url =>
       abs_url <- lift (urljoin response paper_url) ;;
       request <- scrapy_Request abs_url osdi_parse_paper ∅ true ;;
       yield (OutRequest request))
   else
     parse_paper self response).

End Handlers.
End OSDI.

(** ** Adapter C: [usenix.py] *)

Module USENIX.
Section Handlers.
Context {F : Framework} {H : Helpers}.

Definition name : string := "usenix".

Definition allowed_domains : list string := ["usenix.org"].

Definition start_urls : list string :=
  ["https://www.usenix.org/conference/usenixsecurity24/summer-accepted-papers";
   "https://www.usenix.org/conference/usenixsecurity24/fall-accepted-papers"].

(** [UsenixSpider.__init__(conference='', year='')] *)
Definition init (conference year : option string) : Exception + Spider :=
  let conference := default "" conference in
  let year := default "" year in
  BaseSpider_init conference year.

Definition start_requests (self : Spider) : Gen unit :=
  for_each start_urls (fun url =>
    log INFO ("Start scraping " +:+ url +:+ " for " +:+ year self) ;;
    request <- scrapy_Request url usenix_parse
                 {["dont_redirect" := PyBool true]} true ;;
    yield (OutRequest request)).

Definition paper_blocks_xpath : string :=
  "//article[contains(@class," +:+ dq +:+ "node-paper" +:+ dq +:+ ")]".

Definition field_xpath (field : string) : string :=
  ".//div[contains(@class," +:+ dq +:+ field +:+ dq +:+ ")]//p".

(** [scrapy.Selector(text=html).xpath('string(.)').get() if html else ''] *)
Definition flatten (html : option string) : Gen (option string) :=
  if Py.truthy html then
    text <- the_str html ;;
    ret (get (sel_xpath (Selector_of_text text) "string(.)"))
  else ret (Some "").

(** [self.clean_html_tags(value) if value else ''] *)
Definition cleaned (value : option string) : Gen string :=
  if Py.truthy value then
    v <- the_str value ;; ret (clean_html_tags v)
  else ret "".

(** The body of the loop over the paper blocks of a listing page. *)
Definition parse_block (self : Spider) (response : Response) (paper : Selector)
    : Gen unit :=
  let title := get (sel_xpath paper ".//h2/a/text()") in
  let presentation_url := get (sel_xpath paper ".//h2/a/@href") in
  log DEBUG ("Processing paper: " +:+ Py.str_opt title) ;;
  let authors_html :=
    get (sel_xpath paper (field_xpath "field-name-field-paper-people-text")) in
  authors <- flatten authors_html ;;
  let abstract_html :=
    get (sel_xpath paper (field_xpath "field-name-field-paper-description-long")) in
  abstract <- flatten abstract_html ;;
  (if Py.truthy presentation_url then
     log INFO ("Following presentation URL: " +:+ Py.str_opt presentation_url) ;;
     link <- the_str presentation_url ;;
     meta_title <- cleaned title ;;
     meta_authors <- cleaned authors ;;
     meta_abstract <- cleaned abstract ;;
     meta_abstract_url <- lift (urljoin response link) ;;
     request <- follow response link usenix_parse_presentation
                  (<["title" := PyStr meta_title]>
                     (<["authors" := PyStr meta_authors]>
                        (<["abstract" := PyStr meta_abstract]>
                           {["abstract_url" := PyStr meta_abstract_url]})))
                  true ;;
     yield (OutRequest request)
   else
     log WARNING ("No presentation URL found for paper: " +:+ Py.str_opt title)).

Definition parse (self : Spider) (response : Response) : Gen unit :=
  log INFO ("Successfully fetched page: " +:+ url response) ;;
  log INFO ("Response status: " +:+ Py.str_int (status response)) ;;
  let papers := xpath response paper_blocks_xpath in
  log INFO ("Found " +:+ Py.str_nat (length papers) +:+ " paper blocks") ;;
  (if (length papers =? 0)%nat then
     log WARNING "No papers found! Checking page structure..." ;;
     let all_articles := xpath response "//article" in
     log INFO ("Found " +:+ Py.str_nat (length all_articles) +:+ " total articles") ;;
     let titles := take 5 (getall (xpath response "//h2//text()")) in
     log INFO ("Sample titles found: " +:+ str_list titles)
   else ret tt) ;;
  for_each papers (parse_block self response).

Definition citation_pdf_xpath : string :=
  "//meta[@name=" +:+ dq +:+ "citation_pdf_url" +:+ dq +:+ "]/@content".

Definition final_paper_xpath : string :=
  "//div[contains(@class," +:+ dq +:+ "field-name-field-final-paper-pdf" +:+ dq
  +:+ ")]//a/@href".

Definition parse_presentation (self : Spider) (response : Response) : Gen unit :=
  log INFO ("Processing presentation page: " +:+ url response) ;;
  let pdf_url := get (xpath response citation_pdf_xpath) in
  let pdf_url :=
    if negb (Py.truthy pdf_url)
    then get (xpath response final_paper_xpath)
    else pdf_url in
  pdf_url <- (if Py.truthy pdf_url then
                link <- the_str pdf_url ;;
                pdf_url <- lift (urljoin response link) ;;
                log INFO ("Found PDF URL: " +:+ pdf_url) ;;
                ret (Some pdf_url)
              else
                log WARNING ("No PDF URL found for: " +:+ url response) ;;
                ret pdf_url) ;;
  item_title <- getitem (meta response) "title" ;;
  item_authors <- getitem (meta response) "authors" ;;
  item_abstract <- getitem (meta response) "abstract" ;;
  item_abstract_url <- getitem (meta response) "abstract_url" ;;
  item_pdf_url <- (if Py.truthy pdf_url then the_str pdf_url else ret "") ;;
  item_file_urls <- (if Py.truthy pdf_url then
                       p <- the_str pdf_url ;; ret [p]
                     else ret []) ;;
  log INFO ("Yielding item for: " +:+ str_val item_title) ;;
  yield (OutItem {| title := item_title;
                    authors := item_authors;
                    abstract := item_abstract;
                    abstract_url := item_abstract_url;
                    pdf_url := item_pdf_url;
                    file_urls := item_file_urls;
                    source_url := PyInt 12 |}).

End Handlers.
End USENIX.

(** [f(value) if value else d], once the guard has been checked. *)
Definition if_truthy {A} (o : option string) (f : string -> A) (d : A) : A :=
  match o with
  | Some s => if Py.truthy_str s then f s else d
  | None => d
  end.

(** ** The detail stage of each adapter *)

Inductive Adapter : Type := AdapterA | AdapterB | AdapterC.

Definition detail_stage `{Framework} `{Helpers} (a : Adapter)
    : Spider -> Response -> Gen unit :=
  match a with
  | AdapterA => NDSS.parse_paper_details
  | AdapterB => OSDI.parse_paper
  | AdapterC => USENIX.parse_presentation
  end.

(** The link a detail page of Adapter A offers for the PDF. *)
Definition ndss_pdf_link (response : Response) : option string :=
  let pdf_url := get (xpath response NDSS.pdf_button_xpath) in
  if negb (Py.truthy pdf_url) then get (xpath response NDSS.ndss_downloads_xpath)
  else pdf_url.

(** The link a detail page of Adapter C offers for the PDF. *)
Definition usenix_pdf_link (response : Response) : option string :=
  let pdf_url := get (xpath response USENIX.citation_pdf_xpath) in
  if negb (Py.truthy pdf_url) then get (xpath response USENIX.final_paper_xpath)
  else pdf_url.

(** The [pdf_url] of the record of a detail page of Adapter A or C: the
    link joined with the page, [""] without link, or the exception of a
    link that cannot be joined, in which case no record is emitted. *)
Definition ndss_full_pdf_url `{Framework} (response : Response) : Exception + string :=
  if_truthy (ndss_pdf_link response) (urljoin response) (inr "").

Definition usenix_full_pdf_url `{Framework} (response : Response) : Exception + string :=
  if_truthy (usenix_pdf_link response) (urljoin response) (inr "").

(** A page whose document answers no query. *)
Definition blank (response : Response) : Prop := forall q, xpath response q = [].

(** [file_urls] agrees with [pdf_url]. *)
Definition files_consistent (i : PdfFilesItem) : Prop :=
  (file_urls i <> [] <-> pdf_url i <> "") /\
  (file_urls i <> [] -> file_urls i = [pdf_url i]).

(** ** Absolute URLs *)

Definition is_alpha (c : ascii) : bool :=
  let n := nat_of_ascii c in
  (((65 <=? n) && (n <=? 90)) || ((97 <=? n) && (n <=? 122)))%nat.

Definition is_scheme_char (c : ascii) : bool :=
  let n := nat_of_ascii c in
  (is_alpha c || ((48 <=? n) && (n <=? 57)) || (n =? 43) || (n =? 45) || (n =? 46))%nat.

Fixpoint scheme_ends (s : string) : bool :=
  match s with
  | EmptyString => false
  | String c s' =>
      if (nat_of_ascii c =? 58)%nat then true
      else is_scheme_char c && scheme_ends s'
  end.

(** A URL is absolute when it starts with a scheme: a letter, then letters,
    digits, [+], [-] or [.], then a colon. *)
Definition is_absolute (s : string) : bool :=
  match s with
  | EmptyString => false
  | String c s' => is_alpha c && scheme_ends s'
  end.

(** ** Pages and a framework for the examples *)

Definition leaf (value : string) : Selector := mkSelector value (fun _ => []).

Fixpoint answers (table : list (string * list Selector)) (query : string)
    : list Selector :=
  match table with
  | [] => []
  | (q, sels) :: table' => if String.eqb q query then sels else answers table' query
  end.

Definition page (url : string) (meta : gmap string PyVal)
    (table : list (string * list Selector)) : Response :=
  {| url := url; status := 200; meta := meta; xpath := answers table |}.

(** Markup removal for the examples: what stands between [<] and [>] goes. *)
Fixpoint strip_tags (inside : bool) (s : string) : string :=
  match s with
  | EmptyString => EmptyString
  | String c s' =>
      if (nat_of_ascii c =? 60)%nat then strip_tags true s'
      else if (nat_of_ascii c =? 62)%nat then strip_tags false s'
      else if inside then strip_tags inside s'
      else String c (strip_tags inside s')
  end.

Fixpoint count_quotes (s : string) : nat :=
  match s with
  | EmptyString => 0
  | String c s' =>
      if (nat_of_ascii c =? 34)%nat then S (count_quotes s') else count_quotes s'
  end.

(** A framework for the examples.  A link with an unclosed bracket does not
    parse; a link with a scheme is kept and any other is appended to the
    site of the examples.  A stored URL has its spaces escaped.  An
    expression with an unclosed string literal does not compile.  The text
    of a fragment is the fragment without its tags. *)
Definition test_framework : Framework :=
  {| urljoin := fun response link =>
       if Py.contains "[" link && negb (Py.contains "]" link)
       then inl (ValueError "Invalid IPv6 URL")
       else inr (if is_absolute link then link
                 else "https://www.usenix.org" +:+ link);
     safe_url := fun url => inr (Py.replace " " "%20" url);
     xpath_compiles := fun expression => Nat.even (count_quotes expression);
     Selector_of_text := fun text =>
       mkSelector text (fun q => if String.eqb q "string(.)"
                                 then [leaf (strip_tags false text)] else []);
     str_list := fun l => "[" +:+ Py.join ", " l +:+ "]" |}.

Definition test_helpers : Helpers :=
  {| clean_quotes := fun s => s;
     clean_html_tags := strip_tags false;
     clean_extra_whitespaces := fun s => s |}.

Definition ndss_2024 : Spider := {| conference := "ndss"; year := "2024" |}.

Definition osdi_2023 : Spider := {| conference := "osdi"; year := "2023" |}.

Definition usenix_2024 : Spider := {| conference := "usenix"; year := "2024" |}.

(** A landing page of Adapter A without year anchors, and a year page
    without "Accepted Papers" anchor that lists two papers. *)
Definition ndss_landing_page : Response :=
  page "https://www.ndss-symposium.org/previous-ndss-symposia/" ∅ [].

Definition ndss_year_page : Response :=
  page "https://www.ndss-symposium.org/ndss2024/" {["year" := PyStr "2024"]}
    [(NDSS.paper_links_xpath,
      [leaf "https://www.ndss-symposium.org/ndss-paper/one/";
       leaf "https://www.ndss-symposium.org/ndss-paper/two/"])].

(** A detail page of Adapter A with the usual title tag. *)
Definition ndss_page_paper : Response :=
  page "https://www.ndss-symposium.org/ndss-paper/one/" {["year" := PyStr "2024"]}
    [(NDSS.og_title_xpath, [leaf "Paper One - NDSS Symposium"])].

(** A listing page of Adapter C with two blocks: the first has no detail
    link, the second has one and has no description paragraph. *)
Definition usenix_block_plain : Selector :=
  mkSelector "<article class='node-paper'><h2>Paper A</h2></article>"
    (answers [(".//h2/a/text()", [leaf "Paper A"])]).

Definition usenix_block_linked : Selector :=
  mkSelector "<article class='node-paper'><h2><a href='/conference/usenixsecurity24/presentation/b'>Paper B</a></h2></article>"
    (answers
       [(".//h2/a/text()", [leaf "Paper B"]);
        (".//h2/a/@href", [leaf "/conference/usenixsecurity24/presentation/b"]);
        (USENIX.field_xpath "field-name-field-paper-people-text",
         [leaf "<p>Alice A., <em>Univ</em>; Bob B.</p>"])]).

Definition usenix_listing_page : Response :=
  page "https://www.usenix.org/conference/usenixsecurity24/summer-accepted-papers"
    {["dont_redirect" := PyBool true]}
    [(USENIX.paper_blocks_xpath, [usenix_block_plain; usenix_block_linked])].

(** Two paper pages of Adapter B, and one whose citation tag holds a
    relative link. *)
Definition osdi_page_alpha : Response :=
  page "https://www.usenix.org/conference/osdi23/presentation/alpha" ∅
    [(OSDI.meta_xpath "citation_title", [leaf "Alpha"])].

Definition osdi_page_beta : Response :=
  page "https://www.usenix.org/conference/osdi23/presentation/beta" ∅
    [(OSDI.meta_xpath "citation_title", [leaf "Beta"])].

Definition osdi_page_relative_pdf : Response :=
  page "https://www.usenix.org/conference/osdi23/presentation/alpha" ∅
    [(OSDI.meta_xpath "citation_title", [leaf "Alpha"]);
     (OSDI.meta_xpath "citation_pdf_url", [leaf "/system/files/osdi23-alpha.pdf"])].

(** The title as the specification words it: the trailing venue suffix
    removed, curly quotes normalised, surrounding whitespace stripped. *)
Definition specified_title `{Helpers} (content : string) : string :=
  Py.strip (clean_quotes (Py.removesuffix "- NDSS Symposium" content)).

(** A detail page of Adapter A whose title tag has the venue text inside. *)
Definition ndss_page_keynote : Response :=
  page "https://www.ndss-symposium.org/ndss-paper/keynote/" ∅
    [(NDSS.og_title_xpath, [leaf "Keynote - NDSS Symposium 2024"])].

(** ** What a listing block of Adapter C carries to its detail page *)

Section Blocks.
Context {F : Framework} {H : Helpers}.

(** The text of the first paragraph of a field container, [Some ""] when
    the container has none. *)
Definition block_text (html : option string) : option string :=
  if_truthy html (fun h => get (sel_xpath (Selector_of_text h) "string(.)")) (Some "").

Definition block_title (paper : Selector) : string :=
  if_truthy (get (sel_xpath paper ".//h2/a/text()")) clean_html_tags "".

Definition block_authors (paper : Selector) : string :=
  if_truthy
    (block_text (get (sel_xpath paper
                        (USENIX.field_xpath "field-name-field-paper-people-text"))))
    clean_html_tags "".

Definition block_abstract (paper : Selector) : string :=
  if_truthy
    (block_text (get (sel_xpath paper
                        (USENIX.field_xpath "field-name-field-paper-description-long"))))
    clean_html_tags "".

(** The context a block carries, with its detail link joined to [joined]. *)
Definition block_context (paper : Selector) (joined : string) : gmap string PyVal :=
  <["title" := PyStr (block_title paper)]>
    (<["authors" := PyStr (block_authors paper)]>
       (<["abstract" := PyStr (block_abstract paper)]>
          {["abstract_url" := PyStr joined]})).

(** The request that follows the detail link of a block, or the exception
    of a link the framework rejects. *)
Definition block_request (response : Response) (paper : Selector) (link : string)
    : Exception + Request :=
  match urljoin response link with
  | inl e => inl e
  | inr joined =>
      match Request_url joined with
      | inl e => inl e
      | inr stored =>
          inr {| req_url := stored;
                 req_callback := usenix_parse_presentation;
                 req_meta := block_context paper joined;
                 req_dont_filter := true |}
      end
  end.

End Blocks.

(** ** What the framework makes of a link *)

Section Links.
Context {F : Framework}.

Definition succeeds {A} (r : Exception + A) : bool :=
  match r with
  | inr _ => true
  | inl _ => false
  end.

(** The URL of the request that [response.follow(link)] builds, or the
    exception it raises. *)
Definition follow_url (response : Response) (link : string) : Exception + string :=
  match urljoin response link with
  | inl e => inl e
  | inr joined => Request_url joined
  end.

(** A loop that follows links one by one yields the requests for the links
    that come before the first one the framework rejects, and ends with the
    exception of that one. *)
Fixpoint followed (response : Response) (callback : Callback)
    (meta : gmap string PyVal) (dont_filter : bool) (links : list string)
    : list Request :=
  match links with
  | [] => []
  | link :: links' =>
      match follow_url response link with
      | inr stored =>
          {| req_url := stored; req_callback := callback; req_meta := meta;
             req_dont_filter := dont_filter |}
          :: followed response callback meta dont_filter links'
      | inl _ => []
      end
  end.

Fixpoint rejection (response : Response) (links : list string) : Exception + unit :=
  match links with
  | [] => inr tt
  | link :: links' =>
      match follow_url response link with
      | inr _ => rejection response links'
      | inl e => inl e
      end
  end.

End Links.

(** The iterations a loop runs: up to and including the first that raises. *)
Fixpoint iterations {A} (body : A -> Gen unit) (l : list A) : list A :=
  match l with
  | [] => []
  | x :: l' =>
      x :: match outcome (body x) with
           | inr _ => iterations body l'
           | inl _ => []
           end
  end.

(** The detail page fetched for the second block of the listing page. *)
Definition usenix_detail_page : Response :=
  page "https://www.usenix.org/conference/usenixsecurity24/presentation/b"
    (block_context (F := test_framework) (H := test_helpers) usenix_block_linked
       "https://www.usenix.org/conference/usenixsecurity24/presentation/b")
    [(USENIX.citation_pdf_xpath, [leaf "/system/files/usenixsecurity24-b.pdf"])].

(** The record of the second block. *)
Definition usenix_record_b : PdfFilesItem :=
  {| title := PyStr "Paper B";
     authors := PyStr "Alice A., Univ; Bob B.";
     abstract := PyStr "";
     abstract_url :=
       PyStr "https://www.usenix.org/conference/usenixsecurity24/presentation/b";
     pdf_url := "https://www.usenix.org/system/files/usenixsecurity24-b.pdf";
     file_urls := ["https://www.usenix.org/system/files/usenixsecurity24-b.pdf"];
     source_url := PyInt 12 |}.

(** ** Stages, logs and the sources of the fields *)

(** The messages a list of events logs at one level. *)
Definition logged_of (lvl : Level) (es : list Event) : list string :=
  omap (fun e => match e with
                 | Log l msg => match l, lvl with
                                | DEBUG, DEBUG | INFO, INFO
                                | WARNING, WARNING | ERROR, ERROR => Some msg
                                | _, _ => None
                                end
                 | Yield _ => None
                 end) es.

Definition same_level (l1 l2 : Level) : bool :=
  match l1, l2 with
  | DEBUG, DEBUG | INFO, INFO | WARNING, WARNING | ERROR, ERROR => true
  | _, _ => false
  end.

(** The handler a callback names. *)
Definition dispatch `{Framework} `{Helpers} (callback : Callback)
    : Spider -> Response -> Gen unit :=
  match callback with
  | ndss_parse => NDSS.parse
  | ndss_parse_year_page => NDSS.parse_year_page
  | ndss_parse_paper_list => NDSS.parse_paper_list
  | ndss_parse_paper_details => NDSS.parse_paper_details
  | osdi_parse => OSDI.parse
  | osdi_parse_paper => OSDI.parse_paper
  | usenix_parse => USENIX.parse
  | usenix_parse_presentation => USENIX.parse_presentation
  end.

(** The adapter a handler belongs to, and how far it is from the seed. *)
Definition adapter_of (callback : Callback) : Adapter :=
  match callback with
  | ndss_parse | ndss_parse_year_page | ndss_parse_paper_list
  | ndss_parse_paper_details => AdapterA
  | osdi_parse | osdi_parse_paper => AdapterB
  | usenix_parse | usenix_parse_presentation => AdapterC
  end.

Definition stage (callback : Callback) : nat :=
  match callback with
  | ndss_parse | osdi_parse | usenix_parse => 0
  | ndss_parse_year_page | osdi_parse_paper | usenix_parse_presentation => 1
  | ndss_parse_paper_list => 2
  | ndss_parse_paper_details => 3
  end.

(** The detail links a list page of Adapter A offers: those of the primary
    selector, or those of the fallback selector when the primary finds none. *)
Definition ndss_detail_links (response : Response) : list string :=
  let links := getall (xpath response NDSS.paper_links_xpath) in
  if Py.truthy_list links then links
  else getall (xpath response NDSS.read_more_xpath).

(** Whether a listing block of Adapter C has a detail link. *)
Definition has_link (paper : Selector) : bool :=
  Py.truthy (get (sel_xpath paper ".//h2/a/@href")).

(** The text Adapter A takes the authors from: the bold text when it holds
    a parenthesis, the author container without its label otherwise. *)
Definition ndss_authors_source (response : Response) : option string :=
  let authors := get (xpath response "//p/strong/text()") in
  if if_truthy authors (fun s => negb (Py.contains "(" s)) true
  then Some (Py.strip (Py.replace "Author(s):" ""
               (Py.join "" (getall (xpath response NDSS.ndss_authors_xpath)))))
  else authors.

(** The paragraphs Adapter A takes the abstract from: those after a bold
    element, or those after the "Abstract" heading when there are none. *)
Definition ndss_abstract_parts (response : Response) : list string :=
  let abstract_parts := getall (xpath response "//strong/following-sibling::p/text()") in
  if negb (Py.truthy_list abstract_parts)
  then getall (xpath response NDSS.abstract_heading_xpath)
  else abstract_parts.

(** Further pages for the examples: a landing page of Adapter A with the
    year anchor, one whose first year anchor has an empty link, a year page
    with the "Accepted Papers" link, a full detail page, and a session page
    of Adapter B; a detail page of Adapter C without PDF. *)
Definition ndss_landing_with_year : Response :=
  page "https://www.ndss-symposium.org/previous-ndss-symposia/" ∅
    [(NDSS.year_link_xpath ndss_2024,
      [leaf "https://www.ndss-symposium.org/ndss2024/"])].

Definition ndss_landing_empty_link : Response :=
  page "https://www.ndss-symposium.org/previous-ndss-symposia/" ∅
    [(NDSS.year_link_xpath ndss_2024,
      [leaf ""; leaf "https://www.ndss-symposium.org/ndss2024/"])].

Definition ndss_year_page_with_link : Response :=
  page "https://www.ndss-symposium.org/ndss2024/" {["year" := PyStr "2024"]}
    [(NDSS.accepted_papers_xpath,
      [leaf "https://www.ndss-symposium.org/ndss2024/accepted-papers/"]);
     (NDSS.paper_links_xpath,
      [leaf "https://www.ndss-symposium.org/ndss-paper/one/"])].

Definition ndss_page_full : Response :=
  page "https://www.ndss-symposium.org/ndss-paper/one/" {["year" := PyStr "2024"]}
    [(NDSS.og_title_xpath, [leaf " Paper One "]);
     ("//p/strong/text()", [leaf " Alice A. (Univ A), Bob B. (Univ B) "]);
     (NDSS.ndss_authors_xpath, [leaf "Author(s):"; leaf " Carol C."]);
     ("//strong/following-sibling::p/text()", [leaf " First part. "; leaf "Second part."]);
     (NDSS.abstract_heading_xpath, [leaf "Other text."]);
     (NDSS.pdf_button_xpath,
      [leaf "https://www.ndss-symposium.org/wp-content/uploads/one.pdf"]);
     (NDSS.ndss_downloads_xpath, [leaf "/wp-content/uploads/one-slides.pdf"])].

Definition osdi_session_page : Response :=
  page "https://www.usenix.org/conference/osdi23/technical-sessions" ∅
    [(OSDI.presentation_links_xpath,
      [leaf "/conference/osdi23/presentation/alpha";
       leaf "/conference/osdi23/presentation/beta";
       leaf "/conference/osdi23/presentation/alpha"]);
     (OSDI.meta_xpath "citation_author", [leaf "Alice A."; leaf "Bob B."])].

Definition usenix_detail_page_no_pdf : Response :=
  page "https://www.usenix.org/conference/usenixsecurity24/presentation/b"
    (block_context (F := test_framework) (H := test_helpers) usenix_block_linked
       "https://www.usenix.org/conference/usenixsecurity24/presentation/b")
    [].

(** Pages and a configuration the framework objects to: a session page of
    Adapter B with a script link, a list page of Adapter A with a mail link
    between two paper links, a detail page of Adapter A whose PDF link does
    not parse, a listing page of Adapter C whose first block has a script
    link, and a year with a double quote in it. *)
Definition osdi_page_script_link : Response :=
  page "https://www.usenix.org/conference/osdi23/technical-sessions" ∅
    [(OSDI.presentation_links_xpath, [leaf "javascript:open('/presentation/alpha')"])].

Definition ndss_list_page_mail_link : Response :=
  page "https://www.ndss-symposium.org/ndss2024/accepted-papers/"
    {["year" := PyStr "2024"]}
    [(NDSS.paper_links_xpath,
      [leaf "https://www.ndss-symposium.org/ndss-paper/one/";
       leaf "mailto:chairs@ndss-symposium.org";
       leaf "https://www.ndss-symposium.org/ndss-paper/two/"])].

Definition ndss_page_bad_pdf : Response :=
  page "https://www.ndss-symposium.org/ndss-paper/one/" {["year" := PyStr "2024"]}
    [(NDSS.og_title_xpath, [leaf "Paper One - NDSS Symposium"]);
     (NDSS.pdf_button_xpath, [leaf "http://["])].

Definition usenix_block_script : Selector :=
  mkSelector "<article class='node-paper'><h2><a href='javascript:void(0)'>Paper S</a></h2></article>"
    (answers
       [(".//h2/a/text()", [leaf "Paper S"]);
        (".//h2/a/@href", [leaf "javascript:void(0)"])]).

Definition usenix_listing_page_script : Response :=
  page "https://www.usenix.org/conference/usenixsecurity24/summer-accepted-papers"
    {["dont_redirect" := PyBool true]}
    [(USENIX.paper_blocks_xpath, [usenix_block_script; usenix_block_linked])].


(** ** The records of the detail pages of Adapters A and C *)

(** The end of a call into the framework, as the end of the handler. *)
Definition ending {A} (r : Exception + A) : Exception + unit :=
  match r with
  | inr _ => inr tt
  | inl e => inl e
  end.

(** The record of a detail page of Adapter A, given its joined PDF link. *)
Definition ndss_record `{Helpers} (response : Response) (full_pdf_url : string)
    : PdfFilesItem :=
  let abstract := Py.join " " (map Py.strip (ndss_abstract_parts response)) in
  {| title := PyStr (if_truthy (get (xpath response NDSS.og_title_xpath))
                       (fun t => clean_quotes
                          (Py.strip (Py.replace "- NDSS Symposium" "" t))) "");
     authors := PyStr (if_truthy (ndss_authors_source response)
                         (fun a => Py.strip (clean_html_tags a)) "");
     abstract := PyStr (if Py.truthy_str abstract
                        then clean_extra_whitespaces abstract else "");
     abstract_url := PyStr (url response);
     pdf_url := full_pdf_url;
     file_urls := if Py.truthy_str full_pdf_url then [full_pdf_url] else [];
     source_url := PyInt 13 |}.

(** The record of a detail page of Adapter C, given the four entries of its
    context and its joined PDF link. *)
Definition usenix_record (t a b u : PyVal) (pdf : string) : PdfFilesItem :=
  {| title := t; authors := a; abstract := b; abstract_url := u;
     pdf_url := pdf;
     file_urls := if Py.truthy_str pdf then [pdf] else [];
     source_url := PyInt 12 |}.

(** ** Generators: how runs compose *)

Lemma bind_ret {A B} (a : A) (f : A -> Gen B) : bind (ret a) f = f a.
Proof. unfold bind, ret. destruct (f a) as [es r]. reflexivity. Qed.

Lemma bind_raise {A B} (e : Exception) (f : A -> Gen B) : bind (raise e) f = raise e.
Proof. reflexivity. Qed.

Lemma bind_assoc {A B C} (m : Gen A) (f : A -> Gen B) (g : B -> Gen C) :
  bind (bind m f) g = bind m (fun a => bind (f a) g).
Proof.
  destruct m as [es [e|a]]; [reflexivity|]. unfold bind.
  destruct (f a) as [es1 [e|b]]; [reflexivity|].
  destruct (g b) as [es2 r]. rewrite app_assoc. reflexivity.
Qed.

Lemma lift_inr {A} (a : A) : lift (inr a) = ret a.
Proof. reflexivity. Qed.

Lemma lift_inl {A} (e : Exception) : @lift A (inl e) = raise e.
Proof. reflexivity. Qed.

Lemma events_bind {A B} (m : Gen A) (f : A -> Gen B) (a : A) :
  outcome m = inr a -> events (bind m f) = events m ++ events (f a).
Proof.
  destruct m as [es r]. cbn. intros ->. destruct (f a) as [es' r']. reflexivity.
Qed.

Lemma outcome_bind {A B} (m : Gen A) (f : A -> Gen B) (a : A) :
  outcome m = inr a -> outcome (bind m f) = outcome (f a).
Proof.
  destruct m as [es r]. cbn. intros ->. destruct (f a) as [es' r']. reflexivity.
Qed.

Lemma bind_raises {A B} (m : Gen A) (f : A -> Gen B) (e : Exception) :
  outcome m = inl e -> bind m f = (events m, inl e).
Proof. destruct m as [es r]. cbn. intros ->. reflexivity. Qed.

Lemma bind_log {B} (lvl : Level) (msg : string) (k : Gen B) :
  bind (log lvl msg) (fun _ => k) = (Log lvl msg :: events k, outcome k).
Proof. unfold bind, log. destruct k as [es r]. reflexivity. Qed.

Lemma bind_yield {B} (o : Output) (k : Gen B) :
  bind (yield o) (fun _ => k) = (Yield o :: events k, outcome k).
Proof. unfold bind, yield. destruct k as [es r]. reflexivity. Qed.

Lemma yielded_of_app (es1 es2 : list Event) :
  yielded_of (es1 ++ es2) = yielded_of es1 ++ yielded_of es2.
Proof. unfold yielded_of. apply omap_app. Qed.

(** A loop whose body always returns returns, and its events are those of
    its iterations in order. *)
Lemma for_each_returns {A} (l : list A) (body : A -> Gen unit) :
  (forall x, In x l -> returns (body x)) ->
  outcome (for_each l body) = inr tt /\
  events (for_each l body) = flat_map (fun x => events (body x)) l.
Proof.
  induction l as [|x l IH]; intros Hbody.
  - split; reflexivity.
  - destruct (Hbody x (or_introl eq_refl)) as [[] Hx].
    destruct IH as [IHo IHe].
    { intros y Hy. apply Hbody. right. exact Hy. }
    cbn [for_each flat_map]. split.
    + rewrite (outcome_bind _ _ tt Hx). exact IHo.
    + rewrite (events_bind _ _ tt Hx). rewrite IHe. reflexivity.
Qed.

(** A loop runs its body up to the first iteration that raises: its events
    are those of the iterations run, and it raises what that one raises. *)
Lemma for_each_events {A} (l : list A) (body : A -> Gen unit) :
  events (for_each l body) = flat_map (fun x => events (body x)) (iterations body l).
Proof.
  induction l as [|x l IH]; [reflexivity|].
  cbn [for_each iterations flat_map].
  destruct (outcome (body x)) as [e|[]] eqn:Hx.
  - rewrite (bind_raises _ _ e Hx). cbn. rewrite app_nil_r. reflexivity.
  - rewrite (events_bind _ _ tt Hx), IH. reflexivity.
Qed.

Lemma for_each_raises {A} (l : list A) (body : A -> Gen unit) (e : Exception) :
  outcome (for_each l body) = inl e ->
  exists x, In x l /\ outcome (body x) = inl e.
Proof.
  induction l as [|x l IH]; [discriminate|].
  cbn [for_each]. destruct (outcome (body x)) as [e'|[]] eqn:Hx.
  - rewrite (bind_raises _ _ e' Hx). cbn. intros [= <-].
    exists x. split; [left; reflexivity|exact Hx].
  - rewrite (outcome_bind _ _ tt Hx). intros He.
    destruct (IH He) as (y & Hy & Hey). exists y. split; [right; exact Hy|exact Hey].
Qed.

(** A block that returns without yielding can be taken out of a loop. *)
Lemma for_each_skip {A} (pre post : list A) (x : A) (body : A -> Gen unit) :
  yielded (body x) = [] -> outcome (body x) = inr tt ->
  yielded (for_each (pre ++ x :: post) body) = yielded (for_each (pre ++ post) body) /\
  outcome (for_each (pre ++ x :: post) body) = outcome (for_each (pre ++ post) body).
Proof.
  intros Hy Ho. induction pre as [|p pre [IHy IHo]]; cbn [app for_each].
  - unfold yielded. rewrite (events_bind _ _ tt Ho), (outcome_bind _ _ tt Ho).
    rewrite yielded_of_app. unfold yielded in Hy. rewrite Hy. split; reflexivity.
  - destruct (outcome (body p)) as [e|[]] eqn:Hp.
    + rewrite !(bind_raises _ _ e Hp). split; reflexivity.
    + unfold yielded in *. rewrite !(events_bind _ _ tt Hp), !(outcome_bind _ _ tt Hp).
      rewrite !yielded_of_app, IHy. split; [reflexivity|exact IHo].
Qed.

Lemma for_each_ext {A} (l : list A) (f g : A -> Gen unit) :
  (forall x, f x = g x) -> for_each l f = for_each l g.
Proof.
  intros Hfg. induction l as [|x l IH]; [reflexivity|].
  cbn [for_each]. rewrite Hfg, IH. reflexivity.
Qed.

Lemma truthy_str_true (s : string) : Py.truthy_str s = true <-> s <> "".
Proof.
  unfold Py.truthy_str. destruct (String.eqb_spec s ""); cbn; split; intros; congruence.
Qed.

Lemma truthy_str_false (s : string) : Py.truthy_str s = false -> s = "".
Proof.
  unfold Py.truthy_str. destruct (String.eqb_spec s ""); cbn; congruence.
Qed.

Lemma guard_the_str {A} (o : option string) (f : string -> A) (d : A) :
  (if Py.truthy o then s <- the_str o ;; ret (f s) else ret d) = ret (if_truthy o f d).
Proof. destruct o as [s|]; cbn; [destruct (Py.truthy_str s)|]; reflexivity. Qed.

Lemma guard_receiver {A} (o : option string) (f : string -> A) (d : A) :
  (if Py.truthy o then s <- receiver o ;; ret (f s) else ret d) = ret (if_truthy o f d).
Proof. destruct o as [s|]; cbn; [destruct (Py.truthy_str s)|]; reflexivity. Qed.

Lemma guard_the_str_id (o : option string) (d : string) :
  (if Py.truthy o then the_str o else ret d) = ret (if_truthy o (fun s => s) d).
Proof. destruct o as [s|]; cbn; [destruct (Py.truthy_str s)|]; reflexivity. Qed.

Lemma guard_str_in (sub : string) (o : option string) :
  (if negb (Py.truthy o) then ret true
   else found <- str_in sub o ;; ret (negb found))
  = ret (if_truthy o (fun s => negb (Py.contains sub s)) true).
Proof. destruct o as [s|]; cbn; [destruct (Py.truthy_str s)|]; reflexivity. Qed.

(** A guarded call into the framework. *)
Lemma guard_lift {A} (o : option string) (f : string -> Exception + A) (d : A) :
  (if Py.truthy o then s <- the_str o ;; lift (f s) else ret d)
  = lift (if_truthy o f (inr d)).
Proof.
  destruct o as [s|]; cbn; [destruct (Py.truthy_str s)|]; reflexivity.
Qed.

(** Running the straight-line part of a generator. *)
Ltac run_gen :=
  repeat first [rewrite bind_assoc | rewrite lift_inr | rewrite lift_inl
               | rewrite bind_ret | rewrite bind_log
               | rewrite bind_yield | rewrite bind_raise].

(** *** Requests *)

Section RequestRuns.
Context {F : Framework}.

Lemma scrapy_Request_run (url : string) (callback : Callback)
    (meta : gmap string PyVal) (dont_filter : bool) :
  scrapy_Request url callback meta dont_filter =
    lift (match Request_url url with
          | inr stored => inr {| req_url := stored; req_callback := callback;
                                 req_meta := meta; req_dont_filter := dont_filter |}
          | inl e => inl e
          end).
Proof. unfold scrapy_Request. destruct (Request_url url); reflexivity. Qed.

Lemma follow_run (response : Response) (link : string) (callback : Callback)
    (meta : gmap string PyVal) (dont_filter : bool) :
  follow response link callback meta dont_filter =
    lift (match follow_url response link with
          | inr stored => inr {| req_url := stored; req_callback := callback;
                                 req_meta := meta; req_dont_filter := dont_filter |}
          | inl e => inl e
          end).
Proof.
  unfold follow, follow_url. destruct (urljoin response link) as [e|joined];
    [reflexivity|].
  rewrite lift_inr, bind_ret. apply scrapy_Request_run.
Qed.

(** A loop that follows the links of a list. *)
Lemma for_each_follow (response : Response) (callback : Callback)
    (meta : gmap string PyVal) (dont_filter : bool) (links : list string) :
  for_each links (fun link =>
    request <- follow response link callback meta dont_filter ;;
    yield (OutRequest request))
  = (map (fun request => Yield (OutRequest request))
       (followed response callback meta dont_filter links),
     rejection response links).
Proof.
  induction links as [|link links IH]; [reflexivity|].
  cbn [for_each followed rejection]. rewrite follow_run.
  destruct (follow_url response link) as [e|stored].
  - reflexivity.
  - run_gen. rewrite IH. reflexivity.
Qed.

(** The requests followed are requests for links of the list, and there are
    as many as links when none is rejected. *)
Lemma followed_In (response : Response) (callback : Callback)
    (meta : gmap string PyVal) (dont_filter : bool) (links : list string)
    (request : Request) :
  In request (followed response callback meta dont_filter links) ->
  req_callback request = callback /\ req_meta request = meta /\
  req_dont_filter request = dont_filter /\
  exists link, In link links /\ follow_url response link = inr (req_url request).
Proof.
  induction links as [|link links IH]; [intros []|].
  cbn [followed]. destruct (follow_url response link) as [e|stored] eqn:Hlink;
    [intros []|].
  intros [<-|Hin].
  - repeat split. exists link. split; [left; reflexivity|exact Hlink].
  - destruct (IH Hin) as (Hc & Hm & Hd & l & Hl & Hu).
    repeat split; try assumption. exists l. split; [right; exact Hl|exact Hu].
Qed.

(** When the framework accepts every link, the loop returns with one
    request per link, in order. *)
Lemma followed_all (response : Response) (callback : Callback)
    (meta : gmap string PyVal) (dont_filter : bool) (links : list string) :
  (forall link, In link links -> succeeds (follow_url response link) = true) ->
  rejection response links = inr tt /\
  map (fun request => inr (req_url request) : Exception + string)
      (followed response callback meta dont_filter links) =
    map (follow_url response) links.
Proof.
  induction links as [|link links IH]; intros Hall; [split; reflexivity|].
  cbn [followed rejection map].
  pose proof (Hall link (or_introl eq_refl)) as Hlink.
  destruct (follow_url response link) as [e|stored]; [discriminate|].
  destruct IH as [IHr IHf]. { intros l Hl. apply Hall. right. exact Hl. }
  split; [exact IHr|]. cbn [map req_url]. rewrite IHf. reflexivity.
Qed.

(** A loop over links that yields no request had no link, or raised on the
    first. *)
Lemma followed_nil (response : Response) (callback : Callback)
    (meta : gmap string PyVal) (dont_filter : bool) (links : list string) :
  followed response callback meta dont_filter links = [] ->
  links = [] \/ exists e, rejection response links = inl e.
Proof.
  destruct links as [|link links]; [left; reflexivity|].
  cbn [followed rejection]. destruct (follow_url response link) as [e|stored].
  - intros _. right. exists e. reflexivity.
  - discriminate.
Qed.

(** What the framework does with a link: it joins it with the page, escapes
    the joined link, and builds a request for it when it has a scheme. *)
Lemma follow_url_accepted (response : Response) (link joined stored : string) :
  urljoin response link = inr joined -> safe_url joined = inr stored ->
  accepted_scheme stored = true ->
  follow_url response link = inr stored.
Proof.
  intros Hjoin Hstored Hscheme. unfold follow_url, Request_url.
  rewrite Hjoin, Hstored, Hscheme. reflexivity.
Qed.

End RequestRuns.

(** *** Reading the yields and the logs off the events of a run *)

Lemma logged_events {A} (lvl : Level) (g : Gen A) :
  logged lvl g = logged_of lvl (events g).
Proof. reflexivity. Qed.

Lemma logged_of_app (lvl : Level) (es1 es2 : list Event) :
  logged_of lvl (es1 ++ es2) = logged_of lvl es1 ++ logged_of lvl es2.
Proof. unfold logged_of. apply omap_app. Qed.

Lemma logged_of_requests (lvl : Level) (l : list Request) :
  logged_of lvl (map (fun request => Yield (OutRequest request)) l) = [].
Proof. induction l as [|x l IH]; [reflexivity|exact IH]. Qed.

Lemma yielded_of_requests (l : list Request) :
  yielded_of (map (fun request => Yield (OutRequest request)) l) = map OutRequest l.
Proof.
  induction l as [|x l IH]; [reflexivity|].
  cbn [map]. change (yielded_of (Yield ?o :: ?es)) with (o :: yielded_of es).
  rewrite IH. reflexivity.
Qed.

Lemma requests_of_yielded {A} (g : Gen A) (l : list Request) :
  yielded g = map OutRequest l -> requests g = l /\ records g = [].
Proof.
  unfold requests, records. intros ->.
  induction l as [|x l [IH1 IH2]]; [split; reflexivity|].
  split; cbn; [f_equal; exact IH1|exact IH2].
Qed.

Lemma yielded_of_log (lvl : Level) (msg : string) (es : list Event) :
  yielded_of (Log lvl msg :: es) = yielded_of es.
Proof. reflexivity. Qed.

Lemma yielded_of_yield (o : Output) (es : list Event) :
  yielded_of (Yield o :: es) = o :: yielded_of es.
Proof. reflexivity. Qed.

Lemma logged_of_log (lvl l : Level) (msg : string) (es : list Event) :
  logged_of lvl (Log l msg :: es) =
  if same_level l lvl then msg :: logged_of lvl es else logged_of lvl es.
Proof. destruct l, lvl; reflexivity. Qed.

Lemma logged_of_yield (lvl : Level) (o : Output) (es : list Event) :
  logged_of lvl (Yield o :: es) = logged_of lvl es.
Proof. reflexivity. Qed.

Lemma yielded_of_flat_map {A} (l : list A) (f : A -> list Event) :
  yielded_of (flat_map f l) = flat_map (fun x => yielded_of (f x)) l.
Proof.
  induction l as [|x l IH]; [reflexivity|].
  cbn [flat_map]. rewrite yielded_of_app, IH. reflexivity.
Qed.

Lemma In_requests {A} (g : Gen A) (req : Request) :
  In req (requests g) -> In (OutRequest req) (yielded g).
Proof.
  unfold requests. generalize (yielded g). intros l.
  induction l as [|o l IH]; [intros []|].
  destruct o as [r|i]; cbn.
  - intros [->|Hin]; [left; reflexivity|right; exact (IH Hin)].
  - intros Hin. right. exact (IH Hin).
Qed.

Ltac observe :=
  rewrite ?logged_events; unfold yielded;
  cbn [events outcome fst snd];
  rewrite ?yielded_of_log, ?yielded_of_yield, ?logged_of_log, ?logged_of_yield,
          ?yielded_of_requests, ?logged_of_requests;
  cbn [same_level].

Section Properties.
Context {F : Framework} {H : Helpers}.

(** *** The runs of the detail handlers *)

(** The detail handler of Adapter A yields the record of the page, unless
    the framework raises on its PDF link. *)
Lemma ndss_details_run (self : Spider) (response : Response) :
  NDSS.parse_paper_details self response =
    match ndss_full_pdf_url response with
    | inr full =>
        ([Log INFO ("Extracting details from " +:+ url response);
          Yield (OutItem (ndss_record response full))], inr tt)
    | inl e => ([Log INFO ("Extracting details from " +:+ url response)], inl e)
    end.
Proof.
  unfold NDSS.parse_paper_details, ndss_full_pdf_url, ndss_pdf_link, ndss_record,
    ndss_authors_source, ndss_abstract_parts.
  rewrite guard_str_in, bind_ret.
  rewrite guard_receiver, bind_ret.
  rewrite guard_the_str, bind_ret.
  rewrite guard_lift.
  match goal with |- context [lift ?r] => destruct r as [e|full] end.
  - rewrite lift_inl, bind_raise, bind_log. reflexivity.
  - rewrite lift_inr, bind_ret, bind_log. reflexivity.
Qed.

Lemma ndss_details_records (self : Spider) (response : Response) (i : PdfFilesItem) :
  In i (records (NDSS.parse_paper_details self response)) ->
  exists full, ndss_full_pdf_url response = inr full /\ i = ndss_record response full.
Proof.
  rewrite (ndss_details_run self response).
  destruct (ndss_full_pdf_url response) as [e|full]; [intros []|].
  intros [<-|[]]. exists full. split; reflexivity.
Qed.

Lemma osdi_paper_run (self : Spider) (response : Response) :
  let authors := getall (xpath response (OSDI.meta_xpath "citation_author")) in
  let pdf_url := get (xpath response (OSDI.meta_xpath "citation_pdf_url")) in
  OSDI.parse_paper self response =
    ([Yield (OutItem
        {| title := PyStr (if_truthy (get (xpath response (OSDI.meta_xpath "citation_title")))
                             clean_html_tags "");
           authors := PyStr (if Py.truthy_list authors then Py.join ", " authors else "");
           abstract := PyStr (if_truthy (get (xpath response (OSDI.meta_xpath "description")))
                                clean_html_tags "");
           abstract_url := PyStr (url response);
           pdf_url := if_truthy pdf_url (fun p => p) "";
           file_urls := if_truthy pdf_url (fun p => [p]) [];
           source_url := PyStr (url response) |})],
     inr tt).
Proof.
  unfold OSDI.parse_paper.
  rewrite guard_the_str, bind_ret.
  rewrite guard_the_str, bind_ret.
  rewrite guard_the_str, bind_ret.
  rewrite guard_the_str_id, bind_ret.
  reflexivity.
Qed.

(** Running the detail handler of Adapter C by cases: on the PDF link, on
    what joining it gives, and on whether the joined link is empty. *)
Ltac run_presentation response :=
  unfold USENIX.parse_presentation, usenix_full_pdf_url, usenix_record, getitem;
  fold (usenix_pdf_link response);
  let link := fresh "link" in
  let Hlink := fresh "Hlink" in
  let Hjoin := fresh "Hjoin" in
  let Hpdf := fresh "Hpdf" in
  let pdf := fresh "pdf" in
  destruct (usenix_pdf_link response) as [link|];
  [destruct (Py.truthy_str link) eqn:Hlink;
   [destruct (urljoin response link) as [?e|pdf] eqn:Hjoin;
    [|destruct (Py.truthy_str pdf) eqn:Hpdf;
      [|pose proof (truthy_str_false _ Hpdf); subst pdf]]|]|];
  repeat (progress (cbn [Py.truthy if_truthy the_str ending negb];
                    rewrite ?Hlink, ?Hjoin, ?Hpdf;
                    cbn [Py.truthy if_truthy the_str ending negb];
                    run_gen)).

(** With the four entries of the carried context present, the detail
    handler of Adapter C yields one record and returns, unless the framework
    raises on its PDF link. *)
Lemma usenix_presentation_run (self : Spider) (response : Response)
    (t a b u : PyVal) :
  meta response !! "title" = Some t ->
  meta response !! "authors" = Some a ->
  meta response !! "abstract" = Some b ->
  meta response !! "abstract_url" = Some u ->
  yielded (USENIX.parse_presentation self response) =
    match usenix_full_pdf_url response with
    | inr pdf => [OutItem (usenix_record t a b u pdf)]
    | inl _ => []
    end /\
  outcome (USENIX.parse_presentation self response) =
    ending (usenix_full_pdf_url response).
Proof.
  intros Ht Ha Hb Hu.
  unfold getitem. 
  run_presentation response; rewrite ?Ht, ?Ha, ?Hb, ?Hu;
    repeat (progress (run_gen; cbn [Py.truthy if_truthy the_str ending]));
    split; reflexivity.
Qed.

(** It yields nothing but that record. *)
Lemma usenix_presentation_yield (self : Spider) (response : Response) :
  yielded (USENIX.parse_presentation self response) = [] \/
  exists t a b u pdf,
    meta response !! "title" = Some t /\
    meta response !! "authors" = Some a /\
    meta response !! "abstract" = Some b /\
    meta response !! "abstract_url" = Some u /\
    usenix_full_pdf_url response = inr pdf /\
    yielded (USENIX.parse_presentation self response) =
      [OutItem (usenix_record t a b u pdf)] /\
    outcome (USENIX.parse_presentation self response) = inr tt.
Proof.
  destruct (meta response !! "title") as [t|] eqn:Ht;
  [destruct (meta response !! "authors") as [a|] eqn:Ha;
   [destruct (meta response !! "abstract") as [b|] eqn:Hb;
    [destruct (meta response !! "abstract_url") as [u|] eqn:Hu|]|]|].
  1: { destruct (usenix_presentation_run self response t a b u Ht Ha Hb Hu)
         as [Hy Ho].
       destruct (usenix_full_pdf_url response) as [e|pdf] eqn:Hfull.
       - left. exact Hy.
       - right. exists t, a, b, u, pdf. auto 8. }
  all: left; run_presentation response; rewrite ?Ht, ?Ha, ?Hb, ?Hu;
    repeat (progress (run_gen; cbn [Py.truthy if_truthy the_str ending]));
    reflexivity.
Qed.

Lemma usenix_presentation_records (self : Spider) (response : Response)
    (i : PdfFilesItem) :
  In i (records (USENIX.parse_presentation self response)) ->
  exists t a b u pdf,
    meta response !! "title" = Some t /\
    meta response !! "authors" = Some a /\
    meta response !! "abstract" = Some b /\
    meta response !! "abstract_url" = Some u /\
    usenix_full_pdf_url response = inr pdf /\
    i = usenix_record t a b u pdf.
Proof.
  unfold records.
  destruct (usenix_presentation_yield self response)
    as [->|(t & a & b & u & pdf & Ht & Ha & Hb & Hu & Hfull & -> & _)];
    [intros []|].
  intros [<-|[]]. exists t, a, b, u, pdf. auto 8.
Qed.

(** *** Records *)

Lemma if_truthy_file_urls (o : option string) :
  if_truthy o (fun p => [p]) [] =
  (if Py.truthy_str (if_truthy o (fun p => p) "") then [if_truthy o (fun p => p) ""] else []).
Proof.
  destruct o as [s|]; cbn; [|reflexivity].
  destruct (Py.truthy_str s) eqn:Hs; [rewrite Hs|]; reflexivity.
Qed.

Lemma files_consistent_intro (u : string) (i : PdfFilesItem) :
  pdf_url i = u ->
  file_urls i = (if Py.truthy_str u then [u] else []) ->
  files_consistent i.
Proof.
  intros Hu Hf. unfold files_consistent. rewrite Hu, Hf.
  destruct (Py.truthy_str u) eqn:Ht.
  - apply truthy_str_true in Ht. repeat split; intros; congruence.
  - apply truthy_str_false in Ht. repeat split; intros; congruence.
Qed.

(** C1. Every record emitted by a detail-stage operation of any of the three
    adapters has [file_urls] non-empty exactly when [pdf_url] is non-empty,
    and then [file_urls] is the one-element list holding [pdf_url]. *)
Theorem file_urls_iff_pdf_url (a : Adapter) (self : Spider) (response : Response)
    (i : PdfFilesItem) :
  In i (records (detail_stage a self response)) -> files_consistent i.
Proof.
  destruct a; cbn [detail_stage].
  - intros Hi. apply ndss_details_records in Hi as (full & _ & ->).
    eapply files_consistent_intro; reflexivity.
  - rewrite (osdi_paper_run self response). cbv zeta.
    intros [<-|[]]. eapply files_consistent_intro; [reflexivity|].
    cbn [file_urls]. apply if_truthy_file_urls.
  - intros Hi.
    apply usenix_presentation_records in Hi as (t & x & y & u & pdf & _ & _ & _ & _ & _ & ->).
    eapply files_consistent_intro; reflexivity.
Qed.

(** *** The [source_url] tag *)

Lemma ndss_source_url (self : Spider) (response : Response) (i : PdfFilesItem) :
  In i (records (NDSS.parse_paper_details self response)) -> source_url i = PyInt 13.
Proof. intros Hi. apply ndss_details_records in Hi as (full & _ & ->). reflexivity. Qed.

Lemma usenix_source_url (self : Spider) (response : Response) (i : PdfFilesItem) :
  In i (records (USENIX.parse_presentation self response)) -> source_url i = PyInt 12.
Proof.
  intros Hi.
  apply usenix_presentation_records in Hi as (t & x & y & u & pdf & _ & _ & _ & _ & _ & ->).
  reflexivity.
Qed.

Lemma osdi_source_url (self : Spider) (response : Response) :
  map source_url (records (OSDI.parse_paper self response)) = [PyStr (url response)].
Proof. rewrite (osdi_paper_run self response). reflexivity. Qed.

(** C2. The paper-page operation of Adapter B stores the URL of the fetched
    page in [source_url]: two of its pages give two different values, where
    Adapters A and C store the constants 13 and 12. *)
Theorem osdi_source_url_is_page_url (self : Spider) :
  map source_url (records (OSDI.parse_paper self osdi_page_alpha)) =
    [PyStr "https://www.usenix.org/conference/osdi23/presentation/alpha"] /\
  map source_url (records (OSDI.parse_paper self osdi_page_beta)) =
    [PyStr "https://www.usenix.org/conference/osdi23/presentation/beta"].
Proof. rewrite !osdi_source_url. split; reflexivity. Qed.

(** *** The [pdf_url] field *)

Lemma full_pdf_url_absolute (response : Response) (link : option string) (pdf : string) :
  (forall l joined, urljoin response l = inr joined -> is_absolute joined = true) ->
  if_truthy link (urljoin response) (inr "") = inr pdf ->
  pdf = "" \/ is_absolute pdf = true.
Proof.
  intros Hjoin. destruct link as [l|]; cbn [if_truthy];
    [destruct (Py.truthy_str l)|].
  - intros Hl. right. exact (Hjoin l pdf Hl).
  - intros [= <-]. left. reflexivity.
  - intros [= <-]. left. reflexivity.
Qed.

Lemma ndss_pdf_url_absolute (self : Spider) (response : Response) (i : PdfFilesItem) :
  (forall link joined, urljoin response link = inr joined -> is_absolute joined = true) ->
  In i (records (NDSS.parse_paper_details self response)) ->
  pdf_url i = "" \/ is_absolute (pdf_url i) = true.
Proof.
  intros Hjoin Hi. apply ndss_details_records in Hi as (full & Hfull & ->).
  exact (full_pdf_url_absolute response _ full Hjoin Hfull).
Qed.

Lemma usenix_pdf_url_absolute (self : Spider) (response : Response) (i : PdfFilesItem) :
  (forall link joined, urljoin response link = inr joined -> is_absolute joined = true) ->
  In i (records (USENIX.parse_presentation self response)) ->
  pdf_url i = "" \/ is_absolute (pdf_url i) = true.
Proof.
  intros Hjoin Hi.
  apply usenix_presentation_records in Hi
    as (t & x & y & u & pdf & _ & _ & _ & _ & Hfull & ->).
  exact (full_pdf_url_absolute response _ pdf Hjoin Hfull).
Qed.

Lemma osdi_pdf_url (self : Spider) (response : Response) :
  map pdf_url (records (OSDI.parse_paper self response)) =
    [if_truthy (get (xpath response (OSDI.meta_xpath "citation_pdf_url")))
       (fun p => p) ""].
Proof. rewrite (osdi_paper_run self response). reflexivity. Qed.

(** C3. The paper-page operation of Adapter B emits the content of the
    citation tag as it stands: on a page whose tag holds a relative link the
    record's [pdf_url] is that relative link, neither empty nor absolute. *)
Theorem osdi_pdf_url_not_resolved (self : Spider) :
  map pdf_url (records (OSDI.parse_paper self osdi_page_relative_pdf)) =
    ["/system/files/osdi23-alpha.pdf"] /\
  is_absolute "/system/files/osdi23-alpha.pdf" = false.
Proof. rewrite osdi_pdf_url. split; reflexivity. Qed.

End Properties.

(** *** Loops *)

Lemma iterations_In {A} (body : A -> Gen unit) (l : list A) (x : A) :
  In x (iterations body l) -> In x l.
Proof.
  induction l as [|y l IH]; [intros []|].
  cbn [iterations]. intros [->|Hin]; [left; reflexivity|].
  right. destruct (outcome (body y)); [destruct Hin|exact (IH Hin)].
Qed.

Lemma for_each_returns_iff {A} (l : list A) (body : A -> Gen unit) :
  outcome (for_each l body) = inr tt <->
  forall x, In x l -> outcome (body x) = inr tt.
Proof.
  split.
  - induction l as [|y l IH]; [intros _ x []|].
    cbn [for_each]. destruct (outcome (body y)) as [e|[]] eqn:Hy.
    + rewrite (bind_raises _ _ e Hy). discriminate.
    + rewrite (outcome_bind _ _ tt Hy). intros Hl x [<-|Hx]; [exact Hy|].
      exact (IH Hl x Hx).
  - intros Hall. apply for_each_returns. intros x Hx. exists tt. exact (Hall x Hx).
Qed.

Section Stages.
Context {F : Framework} {H : Helpers}.

(** *** Adapter A: from the landing page to the detail pages *)

(** The landing stage, when the year expression compiles: one request for
    the year link if the framework accepts it, or one error. *)
Lemma ndss_parse_run (self : Spider) (response : Response) :
  xpath_compiles (NDSS.year_link_xpath self) = true ->
  let year_link := get (xpath response (NDSS.year_link_xpath self)) in
  yielded (NDSS.parse self response) =
    if_truthy year_link
      (fun link =>
         match follow_url response link with
         | inr stored =>
             [OutRequest {| req_url := stored;
                            req_callback := ndss_parse_year_page;
                            req_meta := {["year" := PyStr (year self)]};
                            req_dont_filter := false |}]
         | inl _ => []
         end) [] /\
  logged ERROR (NDSS.parse self response) =
    if_truthy year_link (fun _ => [])
      ["Could not find a link for the year " +:+ year self +:+ " on the main page."] /\
  outcome (NDSS.parse self response) =
    if_truthy year_link (fun link => ending (follow_url response link)) (inr tt).
Proof.
  intros Hc. cbv zeta. unfold NDSS.parse, xpath_built. rewrite Hc.
  rewrite bind_log, bind_ret. cbv zeta.
  destruct (get (xpath response (NDSS.year_link_xpath self))) as [link|];
    cbn [Py.truthy if_truthy]; [destruct (Py.truthy_str link)|];
    cbn [the_str]; run_gen; rewrite ?follow_run;
    try destruct (follow_url response link) as [e|stored];
    run_gen; observe; repeat split.
Qed.

(** When it does not compile, the landing stage raises at once. *)
Lemma ndss_parse_invalid (self : Spider) (response : Response) :
  xpath_compiles (NDSS.year_link_xpath self) = false ->
  NDSS.parse self response =
    ([Log INFO ("Searching for year " +:+ year self +:+ " on " +:+ url response)],
     inl (ValueError ("XPath error: Invalid expression in "
                      +:+ NDSS.year_link_xpath self))).
Proof.
  intros Hc. unfold NDSS.parse, xpath_built. rewrite Hc. run_gen. reflexivity.
Qed.

(** The list stage: the requests for the detail links up to the first one
    the framework rejects, or one error when there is no link. *)
Lemma ndss_paper_list_run (self : Spider) (response : Response) :
  yielded (NDSS.parse_paper_list self response) =
    map OutRequest (followed response ndss_parse_paper_details (meta response) false
                      (ndss_detail_links response)) /\
  logged ERROR (NDSS.parse_paper_list self response) =
    (if Py.truthy_list (ndss_detail_links response) then []
     else ["Could not find any paper detail links on " +:+ url response
           +:+ ". Spider stopping."]) /\
  outcome (NDSS.parse_paper_list self response) =
    rejection response (ndss_detail_links response).
Proof.
  unfold NDSS.parse_paper_list, ndss_detail_links.
  destruct (getall (xpath response NDSS.paper_links_xpath)) as [|l1 ls1];
    cbn [Py.truthy_list negb]; run_gen.
  - destruct (getall (xpath response NDSS.read_more_xpath)) as [|l2 ls2];
      cbn [Py.truthy_list negb]; run_gen; rewrite ?for_each_follow;
      observe; repeat split.
  - cbn [Py.truthy_list negb]. run_gen. rewrite for_each_follow.
    observe. repeat split.
Qed.

(** The year stage: one request for the list page, or the list stage run on
    the year page itself. *)
Lemma ndss_year_page_run (self : Spider) (response : Response) :
  let link := get (xpath response NDSS.accepted_papers_xpath) in
  yielded (NDSS.parse_year_page self response) =
    if_truthy link
      (fun l =>
         match follow_url response l with
         | inr stored =>
             [OutRequest {| req_url := stored;
                            req_callback := ndss_parse_paper_list;
                            req_meta := meta response;
                            req_dont_filter := false |}]
         | inl _ => []
         end)
      (yielded (NDSS.parse_paper_list self response)) /\
  logged ERROR (NDSS.parse_year_page self response) =
    if_truthy link (fun _ => []) (logged ERROR (NDSS.parse_paper_list self response)) /\
  outcome (NDSS.parse_year_page self response) =
    if_truthy link (fun l => ending (follow_url response l))
      (outcome (NDSS.parse_paper_list self response)).
Proof.
  cbv zeta. unfold NDSS.parse_year_page.
  destruct (get (xpath response NDSS.accepted_papers_xpath)) as [link|];
    cbn [Py.truthy if_truthy]; [destruct (Py.truthy_str link)|];
    cbn [the_str]; run_gen; rewrite ?follow_run;
    try destruct (follow_url response link) as [e|stored];
    run_gen; observe; repeat split.
Qed.

(** *** Adapter B: the session stage *)

Lemma osdi_parse_run (self : Spider) (response : Response) :
  let paper_links := getall (xpath response OSDI.presentation_links_xpath) in
  yielded (OSDI.parse self response) =
    (if Py.truthy_list paper_links
     then map OutRequest (followed response osdi_parse_paper ∅ true paper_links)
     else yielded (OSDI.parse_paper self response)) /\
  outcome (OSDI.parse self response) = rejection response paper_links.
Proof.
  cbv zeta. unfold OSDI.parse.
  destruct (getall (xpath response OSDI.presentation_links_xpath)) as [|l ls];
    cbn [Py.truthy_list].
  - rewrite (osdi_paper_run self response). cbv zeta. run_gen. split; reflexivity.
  - run_gen.
    rewrite (for_each_ext (l :: ls) _
               (fun link => request <- follow response link osdi_parse_paper ∅ true ;;
                            yield (OutRequest request))).
    + rewrite for_each_follow. observe. split; reflexivity.
    + intros link. unfold follow. rewrite bind_assoc. reflexivity.
Qed.

(** *** Missing links *)


(** C6. On a year page with no "Accepted Papers" anchor, the year-page
    operation of Adapter A yields exactly what the list-stage operation
    yields on that page, and ends as it ends. *)
Theorem ndss_year_page_is_list_page (self : Spider) (response : Response) :
  xpath response NDSS.accepted_papers_xpath = [] ->
  yielded (NDSS.parse_year_page self response) =
    yielded (NDSS.parse_paper_list self response) /\
  outcome (NDSS.parse_year_page self response) =
    outcome (NDSS.parse_paper_list self response).
Proof.
  intros Hq. unfold NDSS.parse_year_page. rewrite Hq.
  cbn [get map head Py.truthy].
  rewrite !bind_log. split; reflexivity.
Qed.

(** C8. On a session page with no presentation link, the session-stage
    operation of Adapter B yields no request and exactly the records that
    the paper-page operation yields on that page. *)
Theorem osdi_session_page_is_paper_page (self : Spider) (response : Response) :
  xpath response OSDI.presentation_links_xpath = [] ->
  requests (OSDI.parse self response) = [] /\
  yielded (OSDI.parse self response) = yielded (OSDI.parse_paper self response) /\
  records (OSDI.parse self response) = records (OSDI.parse_paper self response) /\
  length (records (OSDI.parse self response)) = 1 /\
  outcome (OSDI.parse self response) = inr tt.
Proof.
  intros Hq. unfold OSDI.parse. rewrite Hq.
  cbn [getall map Py.truthy_list]. rewrite bind_log.
  rewrite (osdi_paper_run self response). cbv zeta.
  repeat split.
Qed.

(** *** The listing blocks of Adapter C *)

Lemma flatten_run (html : option string) :
  USENIX.flatten html = ret (block_text html).
Proof. unfold USENIX.flatten, block_text. apply guard_the_str. Qed.

Lemma cleaned_run (value : option string) :
  USENIX.cleaned value = ret (if_truthy value clean_html_tags "").
Proof. unfold USENIX.cleaned. apply guard_the_str. Qed.

(** The events of a block: with a detail link, the request for it unless
    the framework rejects the link; without, a warning. *)
Lemma parse_block_events (self : Spider) (response : Response) (paper : Selector) :
  let title := get (sel_xpath paper ".//h2/a/text()") in
  USENIX.parse_block self response paper =
    (Log DEBUG ("Processing paper: " +:+ Py.str_opt title)
     :: if_truthy (get (sel_xpath paper ".//h2/a/@href"))
          (fun link =>
             Log INFO ("Following presentation URL: " +:+ link)
             :: match block_request response paper link with
                | inr request => [Yield (OutRequest request)]
                | inl _ => []
                end)
          [Log WARNING ("No presentation URL found for paper: " +:+ Py.str_opt title)],
     if_truthy (get (sel_xpath paper ".//h2/a/@href"))
       (fun link => ending (block_request response paper link)) (inr tt)).
Proof.
  cbv zeta. unfold USENIX.parse_block. rewrite !flatten_run. run_gen.
  destruct (get (sel_xpath paper ".//h2/a/@href")) as [link|];
    cbn [Py.truthy if_truthy Py.str_opt]; [destruct (Py.truthy_str link)|];
    try reflexivity.
  cbn [the_str]. rewrite !cleaned_run. run_gen.
  unfold block_request, block_context, block_title, block_authors, block_abstract.
  destruct (urljoin response link) as [e|joined] eqn:Hjoin; run_gen;
    [reflexivity|].
  rewrite follow_run. unfold follow_url. rewrite Hjoin.
  destruct (Request_url joined) as [e|stored]; run_gen; reflexivity.
Qed.

Lemma parse_block_run (self : Spider) (response : Response) (paper : Selector) :
  yielded (USENIX.parse_block self response paper) =
    if_truthy (get (sel_xpath paper ".//h2/a/@href"))
      (fun link => match block_request response paper link with
                   | inr request => [OutRequest request]
                   | inl _ => []
                   end) [] /\
  outcome (USENIX.parse_block self response paper) =
    if_truthy (get (sel_xpath paper ".//h2/a/@href"))
      (fun link => ending (block_request response paper link)) (inr tt).
Proof.
  rewrite (parse_block_events self response paper). cbv zeta.
  split; [|reflexivity]. observe.
  destruct (get (sel_xpath paper ".//h2/a/@href")) as [link|]; cbn [if_truthy];
    [destruct (Py.truthy_str link)|]; try reflexivity.
  destruct (block_request response paper link); reflexivity.
Qed.

(** The blocks of a listing page are processed one by one, in order, up to
    the first whose link the framework rejects. *)
Lemma usenix_parse_run (self : Spider) (response : Response) :
  let papers := xpath response USENIX.paper_blocks_xpath in
  events (USENIX.parse self response) =
    Log INFO ("Successfully fetched page: " +:+ url response)
    :: Log INFO ("Response status: " +:+ Py.str_int (status response))
    :: Log INFO ("Found " +:+ Py.str_nat (length papers) +:+ " paper blocks")
    :: (if (length papers =? 0)%nat
        then [Log WARNING "No papers found! Checking page structure...";
              Log INFO ("Found " +:+ Py.str_nat (length (xpath response "//article"))
                        +:+ " total articles");
              Log INFO ("Sample titles found: "
                        +:+ str_list (take 5 (getall (xpath response "//h2//text()"))))]
        else [])
    ++ events (for_each papers (USENIX.parse_block self response)) /\
  outcome (USENIX.parse self response) =
    outcome (for_each papers (USENIX.parse_block self response)).
Proof.
  cbv zeta. unfold USENIX.parse.
  destruct (length (xpath response USENIX.paper_blocks_xpath) =? 0)%nat;
    run_gen; split; reflexivity.
Qed.

Lemma usenix_parse_yielded (self : Spider) (response : Response) :
  yielded (USENIX.parse self response) =
    flat_map (fun paper => yielded (USENIX.parse_block self response paper))
      (iterations (USENIX.parse_block self response)
         (xpath response USENIX.paper_blocks_xpath)).
Proof.
  destruct (usenix_parse_run self response) as [He _]. cbv zeta in He.
  unfold yielded. rewrite He, for_each_events.
  rewrite !yielded_of_log.
  destruct (length (xpath response USENIX.paper_blocks_xpath) =? 0)%nat;
    cbn [app]; rewrite ?yielded_of_log; apply yielded_of_flat_map.
Qed.

(** Every request of a listing page is the request of one of its blocks. *)
Lemma usenix_requests (self : Spider) (response : Response) (req : Request) :
  In req (requests (USENIX.parse self response)) ->
  exists paper link,
    In paper (xpath response USENIX.paper_blocks_xpath) /\
    get (sel_xpath paper ".//h2/a/@href") = Some link /\
    block_request response paper link = inr req.
Proof.
  intros Hin. apply In_requests in Hin.
  rewrite usenix_parse_yielded in Hin.
  apply in_flat_map in Hin as (paper & Hpaper & Hin).
  apply iterations_In in Hpaper.
  destruct (parse_block_run self response paper) as [Hb _]. rewrite Hb in Hin.
  destruct (get (sel_xpath paper ".//h2/a/@href")) as [link|] eqn:Hlink;
    cbn in Hin; [destruct (Py.truthy_str link)|]; cbn in Hin; try contradiction.
  destruct (block_request response paper link) as [e|request] eqn:Hreq;
    [destruct Hin|].
  destruct Hin as [[= <-]|[]]. exists paper, link. auto.
Qed.

(** The request of a block, taken apart. *)
Lemma block_request_inv (response : Response) (paper : Selector) (link : string)
    (req : Request) :
  block_request response paper link = inr req ->
  exists joined,
    urljoin response link = inr joined /\
    Request_url joined = inr (req_url req) /\
    req_callback req = usenix_parse_presentation /\
    req_meta req = block_context paper joined /\
    req_dont_filter req = true.
Proof.
  unfold block_request. destruct (urljoin response link) as [e|joined];
    [discriminate|].
  destruct (Request_url joined) as [e|stored] eqn:Hstored; [discriminate|].
  intros [= <-]. exists joined. repeat split. exact Hstored.
Qed.

(** The context a block carries has the four entries the detail handler
    reads. *)
Lemma block_context_lookup (paper : Selector) (joined : string) :
  let context := block_context paper joined in
  context !! "title" = Some (PyStr (block_title paper)) /\
  context !! "authors" = Some (PyStr (block_authors paper)) /\
  context !! "abstract" = Some (PyStr (block_abstract paper)) /\
  context !! "abstract_url" = Some (PyStr joined).
Proof.
  cbv zeta. unfold block_context.
  repeat split; by simplify_map_eq.
Qed.

Lemma carried_record (self : Spider) (detail : Response)
    (paper : Selector) (joined : string) :
  block_context paper joined ⊆ meta detail ->
  yielded (USENIX.parse_presentation self detail) =
    match usenix_full_pdf_url detail with
    | inr pdf =>
        [OutItem (usenix_record (PyStr (block_title paper)) (PyStr (block_authors paper))
                    (PyStr (block_abstract paper)) (PyStr joined) pdf)]
    | inl _ => []
    end /\
  outcome (USENIX.parse_presentation self detail) =
    ending (usenix_full_pdf_url detail).
Proof.
  intros Hsub.
  destruct (block_context_lookup paper joined) as (Ht & Ha & Hb & Hu).
  apply usenix_presentation_run;
    eapply lookup_weaken; eassumption.
Qed.

End Stages.

Section Listing.
Context {F : Framework} {H : Helpers}.

(** What a listing page yields and how it ends are what the loop over its
    blocks yields and how it ends. *)
Lemma usenix_parse_loop (self : Spider) (response : Response) :
  yielded (USENIX.parse self response) =
    yielded (for_each (xpath response USENIX.paper_blocks_xpath)
               (USENIX.parse_block self response)) /\
  outcome (USENIX.parse self response) =
    outcome (for_each (xpath response USENIX.paper_blocks_xpath)
               (USENIX.parse_block self response)).
Proof.
  destruct (usenix_parse_run self response) as [He Ho]. cbv zeta in He, Ho.
  split; [|exact Ho]. unfold yielded. rewrite He.
  rewrite !yielded_of_log.
  destruct (length (xpath response USENIX.paper_blocks_xpath) =? 0)%nat;
    cbn [app]; rewrite ?yielded_of_log; reflexivity.
Qed.

(** C9. On a listing page of Adapter C the blocks are processed one by one,
    in order, up to the first whose link the framework rejects.  A block
    without detail link yields nothing and returns, and the page yields and
    ends as it would without that block.  A block with a detail link and no
    description paragraph yields the request for that link when the
    framework accepts it (its URL is the stored form of the joined link),
    and nothing otherwise; every record emitted on a detail page that
    carries the context of that request has the title and authors extracted
    from the block and an empty abstract, and there is one when the PDF
    link of the detail page can be joined. *)
Theorem usenix_listing_blocks (self : Spider) (response : Response) :
  yielded (USENIX.parse self response) =
    flat_map (fun paper => yielded (USENIX.parse_block self response paper))
      (iterations (USENIX.parse_block self response)
         (xpath response USENIX.paper_blocks_xpath)) /\
  forall paper : Selector,
    (Py.truthy (get (sel_xpath paper ".//h2/a/@href")) = false ->
     yielded (USENIX.parse_block self response paper) = [] /\
     outcome (USENIX.parse_block self response paper) = inr tt /\
     forall pre post : list Selector,
       xpath response USENIX.paper_blocks_xpath = pre ++ paper :: post ->
       yielded (USENIX.parse self response) =
         yielded (for_each (pre ++ post) (USENIX.parse_block self response)) /\
       outcome (USENIX.parse self response) =
         outcome (for_each (pre ++ post) (USENIX.parse_block self response))) /\
    (forall link : string,
       get (sel_xpath paper ".//h2/a/@href") = Some link -> link <> "" ->
       sel_xpath paper (USENIX.field_xpath "field-name-field-paper-description-long") = [] ->
       yielded (USENIX.parse_block self response paper) =
         match block_request response paper link with
         | inr req => [OutRequest req]
         | inl _ => []
         end /\
       outcome (USENIX.parse_block self response paper) =
         ending (block_request response paper link) /\
       forall req : Request,
         block_request response paper link = inr req ->
         req_callback req = usenix_parse_presentation /\
         (exists joined : string,
            urljoin response link = inr joined /\
            Request_url joined = inr (req_url req)) /\
         forall detail : Response,
           req_meta req ⊆ meta detail ->
           (forall i : PdfFilesItem,
              In i (records (USENIX.parse_presentation self detail)) ->
              title i = PyStr (if_truthy (get (sel_xpath paper ".//h2/a/text()"))
                                 clean_html_tags "") /\
              authors i = PyStr (block_authors paper) /\
              abstract i = PyStr "") /\
           (forall pdf : string,
              usenix_full_pdf_url detail = inr pdf ->
              exists i : PdfFilesItem,
                yielded (USENIX.parse_presentation self detail) = [OutItem i] /\
                pdf_url i = pdf /\
                abstract i = PyStr "")).
Proof.
  split; [apply usenix_parse_yielded|].
  intros paper. destruct (parse_block_run self response paper) as [Hb Hbo].
  split.
  - intros Hlink.
    assert (yielded (USENIX.parse_block self response paper) = [] /\
            outcome (USENIX.parse_block self response paper) = inr tt) as [Hy Ho].
    { rewrite Hb, Hbo.
      destruct (get (sel_xpath paper ".//h2/a/@href")) as [link|]; cbn in *;
        [rewrite Hlink|]; split; reflexivity. }
    split; [exact Hy|]. split; [exact Ho|].
    intros pre post Hpage.
    destruct (usenix_parse_loop self response) as [Hly Hlo].
    rewrite Hly, Hlo, Hpage. apply for_each_skip; assumption.
  - intros link Hlink Hne Hdesc.
    apply truthy_str_true in Hne.
    split; [|split].
    + rewrite Hb, Hlink. cbn [if_truthy]. rewrite Hne. reflexivity.
    + rewrite Hbo, Hlink. cbn [if_truthy]. rewrite Hne. reflexivity.
    + intros req Hreq.
      apply block_request_inv in Hreq as (joined & Hjoin & Hstored & Hcb & Hmeta & _).
      split; [exact Hcb|]. split; [exists joined; split; assumption|].
      intros detail Hsub. rewrite Hmeta in Hsub.
      destruct (carried_record self detail paper joined Hsub) as [Hrun _].
      assert (block_abstract paper = "") as Habs.
      { unfold block_abstract. rewrite Hdesc. reflexivity. }
      split.
      * intros i Hi. unfold records in Hi. rewrite Hrun in Hi.
        destruct (usenix_full_pdf_url detail) as [e|pdf]; [destruct Hi|].
        destruct Hi as [<-|[]]. cbn [title authors abstract usenix_record].
        rewrite Habs. repeat split.
      * intros pdf Hpdf. rewrite Hpdf in Hrun.
        eexists. split; [exact Hrun|]. cbn [pdf_url abstract usenix_record].
        rewrite Habs. split; reflexivity.
Qed.

(** *** How the handlers end *)

(** The loop over the blocks of a listing page returns when the framework
    accepts the link of every block, and raises what it raises on the first
    link it rejects. *)
Lemma usenix_parse_outcome (self : Spider) (response : Response) :
  (outcome (USENIX.parse self response) = inr tt <->
   forall paper link,
     In paper (xpath response USENIX.paper_blocks_xpath) ->
     get (sel_xpath paper ".//h2/a/@href") = Some link -> link <> "" ->
     succeeds (block_request response paper link) = true) /\
  (forall e,
     outcome (USENIX.parse self response) = inl e ->
     exists paper link,
       In paper (xpath response USENIX.paper_blocks_xpath) /\
       get (sel_xpath paper ".//h2/a/@href") = Some link /\
       block_request response paper link = inl e).
Proof.
  destruct (usenix_parse_loop self response) as [_ Ho]. rewrite Ho.
  split.
  - rewrite for_each_returns_iff. split.
    + intros Hall paper link Hin Hlink Hne.
      specialize (Hall paper Hin).
      destruct (parse_block_run self response paper) as [_ Hbo].
      rewrite Hbo, Hlink in Hall. cbn [if_truthy] in Hall.
      apply truthy_str_true in Hne. rewrite Hne in Hall.
      destruct (block_request response paper link); [discriminate|reflexivity].
    + intros Hall paper Hin.
      destruct (parse_block_run self response paper) as [_ Hbo]. rewrite Hbo.
      destruct (get (sel_xpath paper ".//h2/a/@href")) as [link|] eqn:Hlink;
        cbn [if_truthy]; [|reflexivity].
      destruct (Py.truthy_str link) eqn:Hne; [|reflexivity].
      apply truthy_str_true in Hne.
      specialize (Hall paper link Hin Hlink Hne).
      destruct (block_request response paper link); [discriminate|reflexivity].
  - intros e He. apply for_each_raises in He as (paper & Hin & He).
    destruct (parse_block_run self response paper) as [_ Hbo]. rewrite Hbo in He.
    destruct (get (sel_xpath paper ".//h2/a/@href")) as [link|] eqn:Hlink;
      cbn [if_truthy] in He; [|discriminate].
    destruct (Py.truthy_str link); [|discriminate].
    exists paper, link. split; [exact Hin|]. split; [exact Hlink|].
    destruct (block_request response paper link); [|discriminate].
    cbn in He. congruence.
Qed.

(** C4, as the code has it.  No handler raises on missing markup: on a page
    that answers no query every handler returns, and the detail handlers of
    Adapters A and B emit one record with empty fields.  The exceptions a
    handler can end with are those of the framework: on a link it cannot
    join or for which it builds no request, and on the year expression of
    the landing stage of Adapter A when that does not compile.  The detail
    handler of Adapter C is run on a page that carries the context of a
    request of its listing stage. *)
Theorem handlers_raise_only_in_framework (self : Spider) (response : Response) :
  outcome (NDSS.parse self response) =
    (if xpath_compiles (NDSS.year_link_xpath self)
     then if_truthy (get (xpath response (NDSS.year_link_xpath self)))
            (fun link => ending (follow_url response link)) (inr tt)
     else inl (ValueError ("XPath error: Invalid expression in "
                           +:+ NDSS.year_link_xpath self))) /\
  outcome (NDSS.parse_year_page self response) =
    if_truthy (get (xpath response NDSS.accepted_papers_xpath))
      (fun link => ending (follow_url response link))
      (rejection response (ndss_detail_links response)) /\
  outcome (NDSS.parse_paper_list self response) =
    rejection response (ndss_detail_links response) /\
  outcome (NDSS.parse_paper_details self response) =
    ending (ndss_full_pdf_url response) /\
  outcome (OSDI.parse self response) =
    rejection response (getall (xpath response OSDI.presentation_links_xpath)) /\
  outcome (OSDI.parse_paper self response) = inr tt /\
  (outcome (USENIX.parse self response) = inr tt <->
   forall paper link,
     In paper (xpath response USENIX.paper_blocks_xpath) ->
     get (sel_xpath paper ".//h2/a/@href") = Some link -> link <> "" ->
     succeeds (block_request response paper link) = true) /\
  (forall e,
     outcome (USENIX.parse self response) = inl e ->
     exists paper link,
       In paper (xpath response USENIX.paper_blocks_xpath) /\
       get (sel_xpath paper ".//h2/a/@href") = Some link /\
       block_request response paper link = inl e) /\
  (forall (req : Request) (detail : Response),
     In req (requests (USENIX.parse self response)) ->
     req_meta req ⊆ meta detail ->
     outcome (USENIX.parse_presentation self detail) =
       ending (usenix_full_pdf_url detail)) /\
  (blank response ->
   (xpath_compiles (NDSS.year_link_xpath self) = true ->
    outcome (NDSS.parse self response) = inr tt) /\
   outcome (NDSS.parse_year_page self response) = inr tt /\
   outcome (NDSS.parse_paper_list self response) = inr tt /\
   outcome (NDSS.parse_paper_details self response) = inr tt /\
   outcome (OSDI.parse self response) = inr tt /\
   outcome (USENIX.parse self response) = inr tt /\
   records (NDSS.parse_paper_details self response) =
     [{| title := PyStr ""; authors := PyStr ""; abstract := PyStr "";
         abstract_url := PyStr (url response); pdf_url := ""; file_urls := [];
         source_url := PyInt 13 |}] /\
   records (OSDI.parse_paper self response) =
     [{| title := PyStr ""; authors := PyStr ""; abstract := PyStr "";
         abstract_url := PyStr (url response); pdf_url := ""; file_urls := [];
         source_url := PyStr (url response) |}]).
Proof.
  assert (outcome (NDSS.parse self response) =
    (if xpath_compiles (NDSS.year_link_xpath self)
     then if_truthy (get (xpath response (NDSS.year_link_xpath self)))
            (fun link => ending (follow_url response link)) (inr tt)
     else inl (ValueError ("XPath error: Invalid expression in "
                           +:+ NDSS.year_link_xpath self)))) as Hparse.
  { destruct (xpath_compiles (NDSS.year_link_xpath self)) eqn:Hc.
    - apply (ndss_parse_run self response Hc).
    - rewrite (ndss_parse_invalid self response Hc). reflexivity. }
  destruct (ndss_paper_list_run self response) as (_ & _ & Hlist).
  assert (outcome (NDSS.parse_year_page self response) =
    if_truthy (get (xpath response NDSS.accepted_papers_xpath))
      (fun link => ending (follow_url response link))
      (rejection response (ndss_detail_links response))) as Hyear.
  { destruct (ndss_year_page_run self response) as (_ & _ & Ho).
    cbv zeta in Ho. rewrite Ho, Hlist. reflexivity. }
  assert (outcome (NDSS.parse_paper_details self response) =
    ending (ndss_full_pdf_url response)) as Hdetails.
  { rewrite (ndss_details_run self response).
    destruct (ndss_full_pdf_url response); reflexivity. }
  destruct (osdi_parse_run self response) as [_ Hosdi]. cbv zeta in Hosdi.
  destruct (usenix_parse_outcome self response) as [Hiff Hraise].
  split; [exact Hparse|]. split; [exact Hyear|]. split; [exact Hlist|].
  split; [exact Hdetails|]. split; [exact Hosdi|].
  split; [rewrite (osdi_paper_run self response); reflexivity|].
  split; [exact Hiff|]. split; [exact Hraise|].
  split.
  { intros req detail Hreq Hsub.
    apply usenix_requests in Hreq as (paper & link & _ & _ & Hreq).
    apply block_request_inv in Hreq as (joined & _ & _ & _ & Hmeta & _).
    rewrite Hmeta in Hsub.
    apply (carried_record self detail paper joined Hsub). }
  intros Hblank.
  split.
  { intros Hc. rewrite Hparse, Hc, Hblank. reflexivity. }
  split.
  { rewrite Hyear. unfold ndss_detail_links. rewrite !Hblank. reflexivity. }
  split.
  { rewrite Hlist. unfold ndss_detail_links. rewrite !Hblank. reflexivity. }
  split.
  { rewrite Hdetails. unfold ndss_full_pdf_url, ndss_pdf_link.
    rewrite !Hblank. reflexivity. }
  split.
  { rewrite Hosdi, Hblank. reflexivity. }
  split.
  { apply Hiff. intros paper link Hin. rewrite Hblank in Hin. destruct Hin. }
  split.
  - rewrite (ndss_details_run self response).
    unfold ndss_full_pdf_url, ndss_pdf_link, ndss_record, ndss_authors_source,
      ndss_abstract_parts.
    rewrite !Hblank. reflexivity.
  - rewrite (osdi_paper_run self response). cbv zeta. rewrite !Hblank. reflexivity.
Qed.

End Listing.
(** *** Construction *)

(** C10. Constructing Adapter A raises the configuration error exactly when
    the year is missing or empty and succeeds otherwise; constructing
    Adapters B and C succeeds whatever the year, a missing year being
    defaulted. *)
Theorem init_requires_year_only_for_ndss (conference year : option string) :
  ((exists msg, NDSS.init conference year = inl (ValueError msg))
   <-> default "" year = "") /\
  (default "" year <> "" ->
   NDSS.init conference year =
     inr {| conference := default "ndss" conference; year := default "" year |}) /\
  OSDI.init conference year =
    inr {| conference := default "osdi" conference; year := default "2023" year |} /\
  USENIX.init conference year =
    inr {| conference := default "" conference; year := default "" year |}.
Proof.
  unfold NDSS.init, OSDI.init, USENIX.init, BaseSpider_init.
  destruct (Py.truthy_str (default "" year)) eqn:Hy; cbn [negb].
  - apply truthy_str_true in Hy. repeat split.
    + intros [msg Hmsg]. discriminate.
    + intros Hempty. contradiction.
  - apply truthy_str_false in Hy. repeat split.
    + intros _. exact Hy.
    + intros _. eexists. reflexivity.
    + intros Hne. contradiction.
Qed.

(** *** The title of Adapter A *)

Lemma prefix_refl (s : string) : String.prefix s s = true.
Proof.
  induction s as [|c s IH]; simpl.
  - reflexivity.
  - destruct (ascii_dec c c) as [_|Hc]; [exact IH|contradiction].
Qed.

Lemma replace_from_skip (old new s : string) (k : nat) :
  String.length s <= k -> Py.replace_from old new k s = "".
Proof.
  revert k. induction s as [|c s IH]; intros k Hk; cbn in *.
  - reflexivity.
  - destruct k as [|k]; [lia|]. apply IH. lia.
Qed.

Lemma find_later (sub s : string) (c : ascii) (n : nat) :
  Py.find sub (String c s) = Some (S n) ->
  String.prefix sub (String c s) = false /\ Py.find sub s = Some n.
Proof.
  cbn [Py.find]. destruct (String.prefix sub (String c s)); [discriminate|].
  destruct (Py.find sub s) as [m|]; cbn; [|discriminate].
  intros [= ->]. split; reflexivity.
Qed.

(** When the only occurrence of [old] is at the very end, replacing it by
    nothing removes that suffix. *)
Lemma replace_only_suffix (old t : string) :
  old <> "" ->
  Py.find old (t +:+ old) = Some (String.length t) ->
  Py.replace old "" (t +:+ old) = t.
Proof.
  intros Hold. destruct old as [|a old]; [contradiction|]. clear Hold.
  unfold Py.replace.
  induction t as [|c t IH]; intros Hfind.
  - change ("" +:+ String a old) with (String a old).
    cbn [Py.replace_from]. rewrite prefix_refl.
    change ("" +:+ ?x) with x. apply replace_from_skip. cbn. lia.
  - change (String c t +:+ String a old) with (String c (t +:+ String a old)) in *.
    cbn [String.length] in Hfind.
    apply find_later in Hfind as [Hpre Hfind].
    cbn [Py.replace_from]. rewrite Hpre.
    rewrite (IH Hfind). reflexivity.
Qed.

Section Title.
Context {F : Framework} {H : Helpers}.

(** A field of the records of a detail page of Adapter A: there is one
    record, unless the framework raises on the PDF link of the page. *)
Lemma ndss_details_field {A} (field : PdfFilesItem -> A) (self : Spider)
    (response : Response) :
  map field (records (NDSS.parse_paper_details self response)) =
    if succeeds (ndss_full_pdf_url response)
    then [field (ndss_record response
                   (match ndss_full_pdf_url response with
                    | inr full => full
                    | inl _ => ""
                    end))]
    else [].
Proof.
  rewrite (ndss_details_run self response).
  destruct (ndss_full_pdf_url response) as [e|full]; reflexivity.
Qed.

(** C7, as the code has it.  The emitted title is the content of the title
    tag with every occurrence of "- NDSS Symposium" removed, then stripped of
    surrounding whitespace, then quote-normalised; it is empty when the tag
    is absent; and when the only occurrence of the venue text is the
    trailing suffix, it is the content before that suffix, stripped and
    quote-normalised.  The page emits one record, hence one title, unless
    the framework raises on its PDF link. *)
Theorem ndss_title (self : Spider) (response : Response) :
  let content := get (xpath response NDSS.og_title_xpath) in
  let emitted := map title (records (NDSS.parse_paper_details self response)) in
  let once (value : PyVal) :=
    if succeeds (ndss_full_pdf_url response) then [value] else [] in
  emitted =
    once (PyStr (if_truthy content
                   (fun t => clean_quotes (Py.strip (Py.replace "- NDSS Symposium" "" t)))
                   "")) /\
  (content = None -> emitted = once (PyStr "")) /\
  (forall t,
     content = Some (t +:+ "- NDSS Symposium") ->
     Py.find "- NDSS Symposium" (t +:+ "- NDSS Symposium") = Some (String.length t) ->
     emitted = once (PyStr (clean_quotes (Py.strip t)))).
Proof.
  cbv zeta. rewrite ndss_details_field. cbn [title ndss_record].
  split; [reflexivity|]. split.
  - intros ->. reflexivity.
  - intros t -> Hfind. cbn [if_truthy].
    assert (Py.truthy_str (t +:+ "- NDSS Symposium") = true) as ->.
    { apply truthy_str_true. destruct t; discriminate. }
    rewrite replace_only_suffix; [reflexivity|discriminate|exact Hfind].
Qed.

End Title.

(** C7, as the specification words it, fails: a title tag with the venue
    text in the middle loses that text, where removing a trailing suffix
    would leave the content as it is. *)
Lemma ndss_title_not_suffix_only :
  ~ (forall (F : Framework) (H : Helpers) (self : Spider) (response : Response)
       (content : string) (i : PdfFilesItem),
       get (xpath response NDSS.og_title_xpath) = Some content ->
       In i (records (NDSS.parse_paper_details self response)) ->
       title i = PyStr (specified_title content)).
Proof.
  intros Hclaim.
  specialize (Hclaim test_framework test_helpers (mkSpider "ndss" "2024")
                ndss_page_keynote "Keynote - NDSS Symposium 2024"
                (ndss_record (H := test_helpers) ndss_page_keynote "") eq_refl).
  assert (In (ndss_record (H := test_helpers) ndss_page_keynote "")
            (records (NDSS.parse_paper_details (F := test_framework) (H := test_helpers)
                        (mkSpider "ndss" "2024") ndss_page_keynote))) as Hin.
  { vm_compute. left. reflexivity. }
  specialize (Hclaim Hin). vm_compute in Hclaim. discriminate.
Qed.

(** C4, as the specification words it, fails: on a session page whose
    presentation link is a script link, the session stage of Adapter B ends
    with the exception of the request it cannot build. *)
Lemma handlers_can_raise :
  ~ (forall (F : Framework) (H : Helpers) (self : Spider) (response : Response),
       returns (OSDI.parse self response)).
Proof.
  intros Hclaim.
  destruct (Hclaim test_framework test_helpers osdi_2023 osdi_page_script_link)
    as [[] Hreturns].
  vm_compute in Hreturns. discriminate.
Qed.


(** ** Further properties of the handlers *)

Section Navigation.
Context {F : Framework} {H : Helpers}.

(** *** Adapter A: from the landing page to the detail pages *)

(** X1. When the year expression compiles and the first anchor matching the
    configured year has a non-empty link, the landing stage of Adapter A
    logs no error and yields the request the framework builds for that
    link, handled by the year stage and carrying the year and nothing else;
    when the framework builds none it yields nothing and ends with the
    framework's exception.  The request is built, for the escaped form of
    the joined link, whenever the link joins with the page and the escaped
    form has a scheme. *)
Theorem ndss_parse_follows_year_link (self : Spider) (response : Response)
    (link : string) :
  xpath_compiles (NDSS.year_link_xpath self) = true ->
  get (xpath response (NDSS.year_link_xpath self)) = Some link ->
  link <> "" ->
  yielded (NDSS.parse self response) =
    match follow_url response link with
    | inr stored =>
        [OutRequest {| req_url := stored;
                       req_callback := ndss_parse_year_page;
                       req_meta := {["year" := PyStr (year self)]};
                       req_dont_filter := false |}]
    | inl _ => []
    end /\
  logged ERROR (NDSS.parse self response) = [] /\
  outcome (NDSS.parse self response) = ending (follow_url response link) /\
  (forall joined stored,
     urljoin response link = inr joined -> safe_url joined = inr stored ->
     accepted_scheme stored = true ->
     yielded (NDSS.parse self response) =
       [OutRequest {| req_url := stored;
                      req_callback := ndss_parse_year_page;
                      req_meta := {["year" := PyStr (year self)]};
                      req_dont_filter := false |}] /\
     outcome (NDSS.parse self response) = inr tt).
Proof.
  intros Hc Hlink Hne. apply truthy_str_true in Hne.
  destruct (ndss_parse_run self response Hc) as (Hy & He & Ho).
  cbv zeta in Hy, He, Ho. rewrite Hlink in Hy, He, Ho.
  cbn [if_truthy] in Hy, He, Ho. rewrite Hne in Hy, He, Ho.
  split; [exact Hy|]. split; [exact He|]. split; [exact Ho|].
  intros joined stored Hjoin Hstored Hscheme.
  rewrite Hy, Ho, (follow_url_accepted response link joined stored Hjoin Hstored Hscheme).
  split; reflexivity.
Qed.

(** X2. Only the first anchor matching the year counts: when its link is
    the empty string the landing stage yields nothing and, its expression
    compiling, logs the error, whatever the anchors after it hold. *)
Theorem ndss_parse_empty_first_link (self : Spider) (response : Response)
    (first : Selector) (others : list Selector) :
  xpath response (NDSS.year_link_xpath self) = first :: others ->
  sel_get first = "" ->
  yielded (NDSS.parse self response) = [] /\
  logged ERROR (NDSS.parse self response) =
    (if xpath_compiles (NDSS.year_link_xpath self)
     then ["Could not find a link for the year " +:+ year self +:+ " on the main page."]
     else []) /\
  (xpath_compiles (NDSS.year_link_xpath self) = true ->
   outcome (NDSS.parse self response) = inr tt).
Proof.
  intros Hq Hfirst.
  destruct (xpath_compiles (NDSS.year_link_xpath self)) eqn:Hc.
  - destruct (ndss_parse_run self response Hc) as (Hy & He & Ho).
    cbv zeta in Hy, He, Ho. rewrite Hq in Hy, He, Ho.
    cbn [get map head] in Hy, He, Ho. rewrite Hfirst in Hy, He, Ho. auto.
  - rewrite (ndss_parse_invalid self response Hc).
    split; [reflexivity|]. split; [reflexivity|discriminate].
Qed.

(** X3. A navigation handler of Adapter A that logs an error yields
    nothing and returns; and one that yields nothing has logged an error or
    ends with an exception of the framework: no branch of the crawl ends
    without a trace. *)
Theorem ndss_no_silent_end (self : Spider) (response : Response) :
  let traced (run : Gen unit) :=
    (logged ERROR run <> [] -> yielded run = [] /\ outcome run = inr tt) /\
    (yielded run = [] -> logged ERROR run <> [] \/ exists e, outcome run = inl e) in
  traced (NDSS.parse self response) /\
  traced (NDSS.parse_year_page self response) /\
  traced (NDSS.parse_paper_list self response).
Proof.
  cbv zeta.
  assert (Hlist :
    (logged ERROR (NDSS.parse_paper_list self response) <> [] ->
     yielded (NDSS.parse_paper_list self response) = [] /\
     outcome (NDSS.parse_paper_list self response) = inr tt) /\
    (yielded (NDSS.parse_paper_list self response) = [] ->
     logged ERROR (NDSS.parse_paper_list self response) <> [] \/
     exists e, outcome (NDSS.parse_paper_list self response) = inl e)).
  { destruct (ndss_paper_list_run self response) as (Hy & He & Ho).
    rewrite Hy, He, Ho.
    destruct (ndss_detail_links response) as [|l ls] eqn:Hlinks.
    - cbn [Py.truthy_list followed rejection map]. split; intros; [auto|].
      left. discriminate.
    - cbn [Py.truthy_list]. split; [congruence|].
      intros Hnil. right. apply map_eq_nil in Hnil.
      apply followed_nil in Hnil as [Hnil|Hraise]; [discriminate|exact Hraise]. }
  split; [|split; [|exact Hlist]].
  - destruct (xpath_compiles (NDSS.year_link_xpath self)) eqn:Hc.
    + destruct (ndss_parse_run self response Hc) as (Hy & He & Ho).
      cbv zeta in Hy, He, Ho. rewrite Hy, He, Ho.
      destruct (get (xpath response (NDSS.year_link_xpath self))) as [link|];
        cbn [if_truthy]; [destruct (Py.truthy_str link)|].
      * split; [congruence|].
        destruct (follow_url response link) as [e|stored]; [|discriminate].
        intros _. right. exists e. reflexivity.
      * split; intros; [auto|]. left. discriminate.
      * split; intros; [auto|]. left. discriminate.
    + rewrite (ndss_parse_invalid self response Hc). split.
      * intros Hlog. exfalso. apply Hlog. reflexivity.
      * intros _. right. eexists. reflexivity.
  - destruct (ndss_year_page_run self response) as (Hy & He & Ho).
    cbv zeta in Hy, He, Ho. rewrite Hy, He, Ho.
    destruct (get (xpath response NDSS.accepted_papers_xpath)) as [link|];
      cbn [if_truthy]; [destruct (Py.truthy_str link)|]; try exact Hlist.
    split; [congruence|].
    destruct (follow_url response link) as [e|stored]; [|discriminate].
    intros _. right. exists e. reflexivity.
Qed.

(** X4. On a list page of Adapter A the primary selector wins: when it
    finds links, the requests are for those links, in page order up to the
    first link the framework rejects, and the fallback selector is not
    consulted; only when it finds none are the requests those of the
    fallback selector.  When the framework accepts every link there is one
    request per link and the stage returns.  The list stage emits no
    record. *)
Theorem ndss_paper_list_primary_first (self : Spider) (response : Response) :
  let primary := getall (xpath response NDSS.paper_links_xpath) in
  let fallback := getall (xpath response NDSS.read_more_xpath) in
  let requested :=
    followed response ndss_parse_paper_details (meta response) false in
  (primary <> [] ->
   requests (NDSS.parse_paper_list self response) = requested primary /\
   outcome (NDSS.parse_paper_list self response) = rejection response primary) /\
  (primary = [] ->
   requests (NDSS.parse_paper_list self response) = requested fallback /\
   outcome (NDSS.parse_paper_list self response) = rejection response fallback) /\
  records (NDSS.parse_paper_list self response) = [] /\
  ((forall link, In link (ndss_detail_links response) ->
      succeeds (follow_url response link) = true) ->
   map (fun request => inr (req_url request) : Exception + string)
       (requests (NDSS.parse_paper_list self response)) =
     map (follow_url response) (ndss_detail_links response) /\
   outcome (NDSS.parse_paper_list self response) = inr tt).
Proof.
  cbv zeta.
  destruct (ndss_paper_list_run self response) as (Hy & _ & Ho).
  apply requests_of_yielded in Hy as [Hreq Hrec].
  rewrite Hreq, Ho.
  split; [|split; [|split; [exact Hrec|]]].
  - intros Hne. unfold ndss_detail_links.
    destruct (getall (xpath response NDSS.paper_links_xpath)); [congruence|].
    split; reflexivity.
  - intros Hnil. unfold ndss_detail_links. rewrite Hnil. split; reflexivity.
  - intros Hall.
    destruct (followed_all response ndss_parse_paper_details (meta response) false
                _ Hall) as [Hr Hf].
    split; [exact Hf|exact Hr].
Qed.

(** X5. When the year page has a non-empty "Accepted Papers" link, the
    year stage yields the request the framework builds for it, handled by
    the list stage, and nothing when it builds none; the paper links the
    year page may itself hold are not followed.  The request is built, for
    the escaped form of the joined link, whenever the link joins with the
    page and the escaped form has a scheme. *)
Theorem ndss_year_page_follows_link (self : Spider) (response : Response)
    (link : string) :
  get (xpath response NDSS.accepted_papers_xpath) = Some link ->
  link <> "" ->
  yielded (NDSS.parse_year_page self response) =
    match follow_url response link with
    | inr stored =>
        [OutRequest {| req_url := stored;
                       req_callback := ndss_parse_paper_list;
                       req_meta := meta response;
                       req_dont_filter := false |}]
    | inl _ => []
    end /\
  outcome (NDSS.parse_year_page self response) = ending (follow_url response link) /\
  (forall joined stored,
     urljoin response link = inr joined -> safe_url joined = inr stored ->
     accepted_scheme stored = true ->
     yielded (NDSS.parse_year_page self response) =
       [OutRequest {| req_url := stored;
                      req_callback := ndss_parse_paper_list;
                      req_meta := meta response;
                      req_dont_filter := false |}] /\
     outcome (NDSS.parse_year_page self response) = inr tt).
Proof.
  intros Hlink Hne. apply truthy_str_true in Hne.
  destruct (ndss_year_page_run self response) as (Hy & _ & Ho).
  cbv zeta in Hy, Ho. rewrite Hlink in Hy, Ho. cbn [if_truthy] in Hy, Ho.
  rewrite Hne in Hy, Ho.
  split; [exact Hy|]. split; [exact Ho|].
  intros joined stored Hjoin Hstored Hscheme.
  rewrite Hy, Ho, (follow_url_accepted response link joined stored Hjoin Hstored Hscheme).
  split; reflexivity.
Qed.

(** X6. The year and list stages of Adapter A hand the carried context of
    their page on unchanged: every request they yield carries exactly the
    context of the response. *)
Theorem ndss_context_forwarded (self : Spider) (response : Response)
    (req : Request) :
  In req (requests (NDSS.parse_year_page self response)) \/
  In req (requests (NDSS.parse_paper_list self response)) ->
  req_meta req = meta response.
Proof.
  assert (Hyielded : In (OutRequest req) (yielded (NDSS.parse_paper_list self response)) ->
                     req_meta req = meta response).
  { destruct (ndss_paper_list_run self response) as (Hy & _ & _). rewrite Hy.
    intros Hin. apply in_map_iff in Hin as (r & [= <-] & Hr).
    apply followed_In in Hr. apply Hr. }
  intros [Hin|Hin]; apply In_requests in Hin; [|exact (Hyielded Hin)].
  destruct (ndss_year_page_run self response) as (Hy & _ & _).
  cbv zeta in Hy. rewrite Hy in Hin.
  destruct (get (xpath response NDSS.accepted_papers_xpath)) as [link|];
    cbn [if_truthy] in Hin; [destruct (Py.truthy_str link)|];
    try exact (Hyielded Hin).
  destruct (follow_url response link) as [e|stored]; [destruct Hin|].
  destruct Hin as [[= <-]|[]]. reflexivity.
Qed.

(** *** Adapter B: the session stage *)

(** X7. When a session page of Adapter B has presentation links, the
    session stage yields the requests for those links, in page order and
    with repetitions kept, up to the first link for which the framework
    builds no request, and then ends with the framework's exception; each
    request is handled by the paper stage, with empty context and duplicate
    filtering disabled.  When the framework accepts every link there is one
    request per link and the stage returns.  No record is emitted for the
    session page itself. *)
Theorem osdi_parse_fans_out (self : Spider) (response : Response) :
  let paper_links := getall (xpath response OSDI.presentation_links_xpath) in
  paper_links <> [] ->
  requests (OSDI.parse self response) =
    followed response osdi_parse_paper ∅ true paper_links /\
  outcome (OSDI.parse self response) = rejection response paper_links /\
  records (OSDI.parse self response) = [] /\
  (forall req, In req (requests (OSDI.parse self response)) ->
     req_callback req = osdi_parse_paper /\ req_meta req = ∅ /\
     req_dont_filter req = true) /\
  ((forall link, In link paper_links -> succeeds (follow_url response link) = true) ->
   map (fun request => inr (req_url request) : Exception + string)
       (requests (OSDI.parse self response)) =
     map (follow_url response) paper_links /\
   outcome (OSDI.parse self response) = inr tt).
Proof.
  cbv zeta. intros Hne.
  destruct (osdi_parse_run self response) as (Hy & Ho). cbv zeta in Hy, Ho.
  destruct (getall (xpath response OSDI.presentation_links_xpath)) as [|l ls];
    [congruence|].
  cbn [Py.truthy_list] in Hy.
  apply requests_of_yielded in Hy as [Hreq Hrec]. rewrite Hreq, Ho.
  split; [reflexivity|]. split; [reflexivity|]. split; [exact Hrec|]. split.
  - intros req Hin. apply followed_In in Hin as (Hc & Hm & Hd & _). auto.
  - intros Hall.
    destruct (followed_all response osdi_parse_paper ∅ true _ Hall) as [Hr Hf].
    split; [exact Hf|exact Hr].
Qed.

(** X8. The authors field of a record of Adapter B is the contents of the
    author tags joined with a comma and a space, in page order: nothing for
    no tag, the content itself for one tag, [a, b] for two. *)
Theorem osdi_authors_joined (self : Spider) (response : Response) :
  let names := getall (xpath response (OSDI.meta_xpath "citation_author")) in
  map authors (records (OSDI.parse_paper self response)) = [PyStr (Py.join ", " names)] /\
  (names = [] -> map authors (records (OSDI.parse_paper self response)) = [PyStr ""]) /\
  (forall a, names = [a] ->
     map authors (records (OSDI.parse_paper self response)) = [PyStr a]) /\
  (forall a b, names = [a; b] ->
     map authors (records (OSDI.parse_paper self response)) = [PyStr (a +:+ ", " +:+ b)]).
Proof.
  cbv zeta. rewrite (osdi_paper_run self response). cbv zeta.
  change (map authors (records (?es, ?r)))
    with [PyStr (if Py.truthy_list (getall (xpath response (OSDI.meta_xpath "citation_author")))
                 then Py.join ", " (getall (xpath response (OSDI.meta_xpath "citation_author")))
                 else "")].
  split; [|split; [|split]].
  - destruct (getall (xpath response (OSDI.meta_xpath "citation_author"))); reflexivity.
  - intros ->. reflexivity.
  - intros a ->. reflexivity.
  - intros a b ->. reflexivity.
Qed.

(** *** The stages of a crawl *)

Lemma usenix_presentation_no_request (self : Spider) (response : Response) :
  requests (USENIX.parse_presentation self response) = [].
Proof.
  unfold requests.
  destruct (usenix_presentation_yield self response)
    as [->|(t & a & b & u & pdf & _ & _ & _ & _ & _ & -> & _)]; reflexivity.
Qed.

Lemma usenix_parse_no_record (self : Spider) (response : Response) :
  records (USENIX.parse self response) = [].
Proof.
  unfold records. rewrite usenix_parse_yielded.
  induction (iterations (USENIX.parse_block self response)
               (xpath response USENIX.paper_blocks_xpath)) as [|paper papers IH];
    [reflexivity|].
  cbn [flat_map]. rewrite omap_app, IH, app_nil_r.
  destruct (parse_block_run self response paper) as [Hb _]. rewrite Hb.
  destruct (get (sel_xpath paper ".//h2/a/@href")) as [link|]; cbn [if_truthy];
    [destruct (Py.truthy_str link)|]; try reflexivity.
  destruct (block_request response paper link); reflexivity.
Qed.

Lemma ndss_parse_yields (self : Spider) (response : Response) (o : Output) :
  In o (yielded (NDSS.parse self response)) ->
  exists stored,
    o = OutRequest {| req_url := stored;
                      req_callback := ndss_parse_year_page;
                      req_meta := {["year" := PyStr (year self)]};
                      req_dont_filter := false |}.
Proof.
  destruct (xpath_compiles (NDSS.year_link_xpath self)) eqn:Hc.
  - destruct (ndss_parse_run self response Hc) as (Hy & _ & _).
    cbv zeta in Hy. rewrite Hy.
    destruct (get (xpath response (NDSS.year_link_xpath self))) as [link|];
      cbn [if_truthy]; [destruct (Py.truthy_str link)|]; try (intros []).
    destruct (follow_url response link) as [e|stored]; [intros []|].
    intros [<-|[]]. exists stored. reflexivity.
  - rewrite (ndss_parse_invalid self response Hc). intros [].
Qed.

Lemma ndss_paper_list_yields (self : Spider) (response : Response) (o : Output) :
  In o (yielded (NDSS.parse_paper_list self response)) ->
  exists req, o = OutRequest req /\ req_callback req = ndss_parse_paper_details.
Proof.
  destruct (ndss_paper_list_run self response) as (Hy & _ & _). rewrite Hy.
  intros Hin. apply in_map_iff in Hin as (r & <- & Hr).
  exists r. split; [reflexivity|]. apply followed_In in Hr. apply Hr.
Qed.

Lemma ndss_year_page_yields (self : Spider) (response : Response) (o : Output) :
  In o (yielded (NDSS.parse_year_page self response)) ->
  exists req, o = OutRequest req /\
    (req_callback req = ndss_parse_paper_list \/
     req_callback req = ndss_parse_paper_details).
Proof.
  destruct (ndss_year_page_run self response) as (Hy & _ & _).
  cbv zeta in Hy. rewrite Hy.
  assert (In o (yielded (NDSS.parse_paper_list self response)) ->
          exists req, o = OutRequest req /\
            (req_callback req = ndss_parse_paper_list \/
             req_callback req = ndss_parse_paper_details)) as Hlist.
  { intros Hin. apply ndss_paper_list_yields in Hin as (req & -> & Hc).
    exists req. auto. }
  destruct (get (xpath response NDSS.accepted_papers_xpath)) as [link|];
    cbn [if_truthy]; [destruct (Py.truthy_str link)|]; try exact Hlist.
  destruct (follow_url response link) as [e|stored]; [intros []|].
  intros [<-|[]]. eexists. split; [reflexivity|]. left. reflexivity.
Qed.

Lemma records_of_requests {A} (g : Gen A) :
  (forall o, In o (yielded g) -> exists req, o = OutRequest req) -> records g = [].
Proof.
  unfold records. induction (yielded g) as [|o l IH]; [reflexivity|].
  intros Hall. destruct (Hall o (or_introl eq_refl)) as [req ->].
  cbn. apply IH. intros o' Ho'. apply Hall. right. exact Ho'.
Qed.

(** X9. Every request a handler yields names a handler of the same adapter
    that is strictly further from the seed: no handler schedules itself or
    an earlier stage, so a crawl is at most four pages deep for Adapter A
    and two for Adapters B and C. *)
Theorem stage_increases (callback : Callback) (self : Spider) (response : Response)
    (req : Request) :
  In req (requests (dispatch callback self response)) ->
  stage callback < stage (req_callback req) /\
  adapter_of (req_callback req) = adapter_of callback.
Proof.
  destruct callback; cbn [dispatch stage adapter_of]; intros Hin.
  - apply In_requests, ndss_parse_yields in Hin as (stored & [= ->]).
    cbn. split; [lia|reflexivity].
  - apply In_requests, ndss_year_page_yields in Hin as (r & [= <-] & [Hc|Hc]);
      rewrite Hc; cbn; split; first [lia|reflexivity].
  - apply In_requests, ndss_paper_list_yields in Hin as (r & [= <-] & Hc).
    rewrite Hc. cbn. split; [lia|reflexivity].
  - rewrite (ndss_details_run self response) in Hin.
    destruct (ndss_full_pdf_url response); destruct Hin.
  - apply In_requests in Hin.
    destruct (osdi_parse_run self response) as (Hy & _).
    cbv zeta in Hy. rewrite Hy in Hin.
    destruct (Py.truthy_list (getall (xpath response OSDI.presentation_links_xpath))).
    + apply in_map_iff in Hin as (r & [= <-] & Hr).
      apply followed_In in Hr as (Hc & _). rewrite Hc.
      cbn. split; [lia|reflexivity].
    + rewrite (osdi_paper_run self response) in Hin. cbv zeta in Hin.
      destruct Hin as [[=]|[]].
  - rewrite (osdi_paper_run self response) in Hin. destruct Hin.
  - apply usenix_requests in Hin as (paper & link & _ & _ & Hreq).
    apply block_request_inv in Hreq as (joined & _ & _ & Hc & _).
    rewrite Hc. cbn. split; [lia|reflexivity].
  - rewrite usenix_presentation_no_request in Hin. destruct Hin.
Qed.

(** X10. Records come from the detail stages only, and requests from the
    navigation stages only: the landing, year and list stages of Adapter A
    and the listing stage of Adapter C emit no record; the three detail
    stages yield no request.  The detail stage of Adapter A emits one
    record, or none when the framework raises on its PDF link; that of
    Adapter B emits exactly one on every page; that of Adapter C at most
    one. *)
Theorem records_only_at_detail_stages (self : Spider) (response : Response) :
  records (NDSS.parse self response) = [] /\
  records (NDSS.parse_year_page self response) = [] /\
  records (NDSS.parse_paper_list self response) = [] /\
  records (USENIX.parse self response) = [] /\
  requests (NDSS.parse_paper_details self response) = [] /\
  requests (OSDI.parse_paper self response) = [] /\
  requests (USENIX.parse_presentation self response) = [] /\
  length (records (NDSS.parse_paper_details self response)) =
    (if succeeds (ndss_full_pdf_url response) then 1 else 0) /\
  length (records (OSDI.parse_paper self response)) = 1 /\
  length (records (USENIX.parse_presentation self response)) <= 1.
Proof.
  split.
  { apply records_of_requests. intros o Ho.
    apply ndss_parse_yields in Ho as (stored & ->). eexists. reflexivity. }
  split.
  { apply records_of_requests. intros o Ho.
    apply ndss_year_page_yields in Ho as (req & -> & _). eexists. reflexivity. }
  split.
  { apply records_of_requests. intros o Ho.
    apply ndss_paper_list_yields in Ho as (req & -> & _). eexists. reflexivity. }
  split; [apply usenix_parse_no_record|].
  split.
  { rewrite (ndss_details_run self response).
    destruct (ndss_full_pdf_url response); reflexivity. }
  split; [rewrite (osdi_paper_run self response); reflexivity|].
  split; [apply usenix_presentation_no_request|].
  split.
  { rewrite (ndss_details_run self response).
    destruct (ndss_full_pdf_url response); reflexivity. }
  split; [rewrite (osdi_paper_run self response); reflexivity|].
  unfold records.
  destruct (usenix_presentation_yield self response)
    as [->|(t & a & b & u & pdf & _ & _ & _ & _ & _ & -> & _)]; cbn; lia.
Qed.



(** X12. The [source_url] of a record tells which adapter produced it:
    records of two different adapters never carry the same value (13 for
    Adapter A, 12 for Adapter C, a string for Adapter B). *)
Theorem source_url_tells_adapter (a b : Adapter) (self other : Spider)
    (page1 page2 : Response) (i j : PdfFilesItem) :
  In i (records (detail_stage a self page1)) ->
  In j (records (detail_stage b other page2)) ->
  source_url i = source_url j ->
  a = b.
Proof.
  assert (Hsrc : forall c s p k, In k (records (detail_stage c s p)) ->
            source_url k = match c with
                           | AdapterA => PyInt 13
                           | AdapterB => PyStr (url p)
                           | AdapterC => PyInt 12
                           end).
  { intros c s p k Hk. destruct c; cbn [detail_stage] in Hk.
    - apply (ndss_source_url s p k Hk).
    - apply (in_map source_url) in Hk. rewrite osdi_source_url in Hk.
      destruct Hk as [<-|[]]. reflexivity.
    - apply (usenix_source_url s p k Hk). }
  intros Hi Hj Heq. apply Hsrc in Hi. apply Hsrc in Hj.
  rewrite Hi, Hj in Heq. destruct a, b; congruence.
Qed.

(** X13. When joining a link with the page gives an absolute URL, the
    [pdf_url] of every record of Adapters A and C is empty or absolute. *)
Theorem pdf_url_absolute_when_joined (a : Adapter) (self : Spider)
    (response : Response) (i : PdfFilesItem) :
  a <> AdapterB ->
  (forall link joined, urljoin response link = inr joined -> is_absolute joined = true) ->
  In i (records (detail_stage a self response)) ->
  pdf_url i = "" \/ is_absolute (pdf_url i) = true.
Proof.
  intros Ha Hjoin. destruct a; cbn [detail_stage]; [|contradiction|].
  - apply ndss_pdf_url_absolute. exact Hjoin.
  - apply usenix_pdf_url_absolute. exact Hjoin.
Qed.

(** *** Adapter A: the fields of a record *)

Lemma contains_nonempty (sub s : string) :
  sub <> "" -> Py.contains sub s = true -> Py.truthy_str s = true.
Proof.
  intros Hsub. destruct s as [|c s]; [|reflexivity].
  destruct sub as [|a sub]; [contradiction|]. discriminate.
Qed.

(** X14. The authors of a record of Adapter A come from the bold text
    exactly when that text holds an opening parenthesis, and the author
    container is then ignored; otherwise they come from the author
    container, with every "Author(s):" label removed.  The page emits one
    record, hence one authors field, unless the framework raises on its PDF
    link. *)
Theorem ndss_authors_gate (self : Spider) (response : Response) :
  let bold := get (xpath response "//p/strong/text()") in
  let container :=
    Py.strip (Py.replace "Author(s):" ""
                (Py.join "" (getall (xpath response NDSS.ndss_authors_xpath)))) in
  let emitted := map authors (records (NDSS.parse_paper_details self response)) in
  let once (value : PyVal) :=
    if succeeds (ndss_full_pdf_url response) then [value] else [] in
  (forall b, bold = Some b -> Py.contains "(" b = true ->
     emitted = once (PyStr (Py.strip (clean_html_tags b)))) /\
  ((forall b, bold = Some b -> Py.contains "(" b = false) ->
     emitted = once (PyStr (if Py.truthy_str container
                            then Py.strip (clean_html_tags container) else ""))).
Proof.
  cbv zeta. rewrite ndss_details_field. cbn [authors ndss_record].
  unfold ndss_authors_source. split.
  - intros b -> Hb.
    assert (Ht : Py.truthy_str b = true)
      by (apply (contains_nonempty "(" b); [discriminate|exact Hb]).
    cbn [if_truthy]. rewrite Ht, Hb. cbn [negb if_truthy]. rewrite Ht. reflexivity.
  - intros Hno.
    destruct (get (xpath response "//p/strong/text()")) as [b|]; cbn [if_truthy].
    + rewrite (Hno b eq_refl). cbn [negb].
      destruct (Py.truthy_str b); reflexivity.
    + reflexivity.
Qed.

Lemma rstrip_idempotent (s : string) : Py.rstrip (Py.rstrip s) = Py.rstrip s.
Proof.
  induction s as [|c s IH]; [reflexivity|].
  cbn [Py.rstrip]. destruct (Py.rstrip s) as [|d r] eqn:Hr.
  - destruct (Py.isspace c) eqn:Hc; cbn [Py.rstrip]; [reflexivity|].
    rewrite Hc. reflexivity.
  - cbn [Py.rstrip] in *. rewrite IH. reflexivity.
Qed.

Lemma lstrip_rstrip (s : string) :
  Py.lstrip s = s -> Py.lstrip (Py.rstrip s) = Py.rstrip s.
Proof.
  destruct s as [|c s]; [reflexivity|].
  cbn [Py.lstrip]. destruct (Py.isspace c) eqn:Hc.
  - intros Hs. exfalso.
    assert (Hlen : forall t, String.length (Py.lstrip t) <= String.length t).
    { induction t as [|a t IHt]; cbn; [lia|]. destruct (Py.isspace a); cbn; lia. }
    specialize (Hlen s). rewrite Hs in Hlen. cbn in Hlen. lia.
  - intros _. cbn [Py.rstrip].
    destruct (Py.rstrip s); rewrite ?Hc; cbn [Py.lstrip]; rewrite Hc; reflexivity.
Qed.

Lemma lstrip_idempotent (s : string) : Py.lstrip (Py.lstrip s) = Py.lstrip s.
Proof.
  induction s as [|c s IH]; [reflexivity|].
  cbn [Py.lstrip]. destruct (Py.isspace c) eqn:Hc; [exact IH|].
  cbn [Py.lstrip]. rewrite Hc. reflexivity.
Qed.

(** Stripping twice is stripping once. *)
Lemma strip_idempotent (s : string) : Py.strip (Py.strip s) = Py.strip s.
Proof.
  unfold Py.strip.
  rewrite (lstrip_rstrip (Py.lstrip s) (lstrip_idempotent s)).
  apply rstrip_idempotent.
Qed.

(** X15. The authors of a record of Adapter A never have surrounding
    whitespace, whatever the page and whatever the tag cleaner returns. *)
Theorem ndss_authors_stripped (self : Spider) (response : Response) (i : PdfFilesItem) :
  In i (records (NDSS.parse_paper_details self response)) ->
  exists a, authors i = PyStr a /\ Py.strip a = a.
Proof.
  intros Hi. apply ndss_details_records in Hi as (full & _ & ->).
  cbn [authors ndss_record]. eexists. split; [reflexivity|].
  destruct (ndss_authors_source response) as [a|]; cbn [if_truthy];
    [destruct (Py.truthy_str a)|]; try reflexivity.
  apply strip_idempotent.
Qed.

Lemma replace_absent (old new s : string) :
  Py.contains old s = false -> Py.replace_from old new 0 s = s.
Proof.
  induction s as [|c s IH]; [reflexivity|].
  cbn [Py.contains Py.replace_from].
  destruct (String.prefix old (String c s)); [discriminate|].
  cbn [orb]. intros Hs. rewrite (IH Hs). reflexivity.
Qed.

(** X16. A title tag that does not hold the venue text goes through
    unchanged but for stripping and quote normalisation.  The page emits
    one record, hence one title, unless the framework raises on its PDF
    link. *)
Theorem ndss_title_without_venue_text (self : Spider) (response : Response)
    (content : string) :
  get (xpath response NDSS.og_title_xpath) = Some content ->
  content <> "" ->
  Py.contains "- NDSS Symposium" content = false ->
  map title (records (NDSS.parse_paper_details self response)) =
    if succeeds (ndss_full_pdf_url response)
    then [PyStr (clean_quotes (Py.strip content))]
    else [].
Proof.
  intros Hget Hne Hno. apply truthy_str_true in Hne.
  rewrite ndss_details_field. cbn [title ndss_record].
  rewrite Hget. cbn [if_truthy]. rewrite Hne.
  unfold Py.replace. rewrite (replace_absent _ _ _ Hno). reflexivity.
Qed.

(** X17. The abstract of a record of Adapter A is built from the
    paragraphs that follow a bold element when there are any, and only
    otherwise from the paragraphs that follow the "Abstract" heading: each
    paragraph stripped, the paragraphs joined with one space, the result
    cleaned unless it is empty.  The page emits one record, hence one
    abstract, unless the framework raises on its PDF link. *)
Theorem ndss_abstract_priority (self : Spider) (response : Response) :
  let after_bold := getall (xpath response "//strong/following-sibling::p/text()") in
  let after_heading := getall (xpath response NDSS.abstract_heading_xpath) in
  let text := fun parts =>
    let joined := Py.join " " (map Py.strip parts) in
    PyStr (if Py.truthy_str joined then clean_extra_whitespaces joined else "") in
  let emitted := map abstract (records (NDSS.parse_paper_details self response)) in
  let once (value : PyVal) :=
    if succeeds (ndss_full_pdf_url response) then [value] else [] in
  (after_bold <> [] -> emitted = once (text after_bold)) /\
  (after_bold = [] -> emitted = once (text after_heading)).
Proof.
  cbv zeta. rewrite ndss_details_field. cbn [abstract ndss_record].
  unfold ndss_abstract_parts. split.
  - intros Hne.
    destruct (getall (xpath response "//strong/following-sibling::p/text()"));
      [congruence|reflexivity].
  - intros ->. reflexivity.
Qed.

(** X18. The PDF link of a record of Adapter A is the link of the PDF
    button when that is non-empty, the downloads container being ignored;
    otherwise the first link of the downloads container.  The link is
    joined with the page: the record holds the joined link, and when the
    framework cannot join the link no record is emitted and the handler
    ends with the framework's exception.  With neither link the record is
    emitted with an empty [pdf_url] and no [file_urls]. *)
Theorem ndss_pdf_sources (self : Spider) (response : Response) :
  let button := get (xpath response NDSS.pdf_button_xpath) in
  let downloads := get (xpath response NDSS.ndss_downloads_xpath) in
  let emitted := map pdf_url (records (NDSS.parse_paper_details self response)) in
  let joined (link : string) :=
    match urljoin response link with
    | inr pdf => [pdf]
    | inl _ => []
    end in
  (forall link, button = Some link -> link <> "" ->
     emitted = joined link /\
     outcome (NDSS.parse_paper_details self response) =
       ending (urljoin response link)) /\
  (forall link, Py.truthy button = false -> downloads = Some link -> link <> "" ->
     emitted = joined link /\
     outcome (NDSS.parse_paper_details self response) =
       ending (urljoin response link)) /\
  (Py.truthy button = false -> Py.truthy downloads = false ->
     emitted = [""] /\
     map file_urls (records (NDSS.parse_paper_details self response)) = [[]] /\
     outcome (NDSS.parse_paper_details self response) = inr tt).
Proof.
  cbv zeta.
  assert (forall link, ndss_full_pdf_url response = urljoin response link ->
            map pdf_url (records (NDSS.parse_paper_details self response)) =
              match urljoin response link with inr pdf => [pdf] | inl _ => [] end /\
            outcome (NDSS.parse_paper_details self response) =
              ending (urljoin response link)) as Hlink.
  { intros link Hfull. rewrite (ndss_details_run self response), Hfull.
    destruct (urljoin response link); split; reflexivity. }
  split; [|split].
  - intros link Hbutton Hne. apply truthy_str_true in Hne. apply Hlink.
    unfold ndss_full_pdf_url, ndss_pdf_link. rewrite Hbutton.
    cbn [Py.truthy negb]. rewrite Hne. cbn [negb if_truthy]. rewrite Hne. reflexivity.
  - intros link Hbutton Hdownloads Hne. apply truthy_str_true in Hne. apply Hlink.
    unfold ndss_full_pdf_url, ndss_pdf_link. rewrite Hbutton, Hdownloads.
    cbn [negb if_truthy]. rewrite Hne. reflexivity.
  - intros Hbutton Hdownloads.
    assert (ndss_full_pdf_url response = inr "") as Hfull.
    { unfold ndss_full_pdf_url, ndss_pdf_link. rewrite Hbutton. cbn [negb].
      destruct (get (xpath response NDSS.ndss_downloads_xpath)) as [l|];
        cbn [Py.truthy if_truthy] in *; [rewrite Hdownloads|]; reflexivity. }
    rewrite (ndss_details_run self response), Hfull. repeat split.
Qed.

(** *** Adapter C: the detail page and the listing page *)

(** X19. With the carried context present, the PDF link of a record of
    Adapter C is the content of the citation tag when that is non-empty, the
    final-paper container being ignored; otherwise the first link of the
    final-paper container.  The link is joined with the page: the record
    holds the joined link, and when the framework cannot join the link no
    record is emitted and the handler ends with the framework's exception.
    With neither link the record is still emitted, with empty [pdf_url] and
    no [file_urls], and one warning is logged. *)
Theorem usenix_pdf_sources (self : Spider) (response : Response) (t a b u : PyVal) :
  meta response !! "title" = Some t ->
  meta response !! "authors" = Some a ->
  meta response !! "abstract" = Some b ->
  meta response !! "abstract_url" = Some u ->
  let tag := get (xpath response USENIX.citation_pdf_xpath) in
  let final := get (xpath response USENIX.final_paper_xpath) in
  let emitted := map pdf_url (records (USENIX.parse_presentation self response)) in
  let joined (link : string) :=
    match urljoin response link with
    | inr pdf => [pdf]
    | inl _ => []
    end in
  (forall link, tag = Some link -> link <> "" ->
     emitted = joined link /\
     outcome (USENIX.parse_presentation self response) =
       ending (urljoin response link)) /\
  (forall link, Py.truthy tag = false -> final = Some link -> link <> "" ->
     emitted = joined link /\
     outcome (USENIX.parse_presentation self response) =
       ending (urljoin response link)) /\
  (Py.truthy tag = false -> Py.truthy final = false ->
     records (USENIX.parse_presentation self response) =
       [{| title := t; authors := a; abstract := b; abstract_url := u;
           pdf_url := ""; file_urls := []; source_url := PyInt 12 |}] /\
     logged WARNING (USENIX.parse_presentation self response) =
       ["No PDF URL found for: " +:+ url response] /\
     outcome (USENIX.parse_presentation self response) = inr tt).
Proof.
  intros Ht Ha Hb Hu. cbv zeta.
  destruct (usenix_presentation_run self response t a b u Ht Ha Hb Hu) as [Hrun Hout].
  assert (forall link, usenix_full_pdf_url response = urljoin response link ->
            map pdf_url (records (USENIX.parse_presentation self response)) =
              match urljoin response link with inr pdf => [pdf] | inl _ => [] end /\
            outcome (USENIX.parse_presentation self response) =
              ending (urljoin response link)) as Hlink.
  { intros link Hfull. unfold records. rewrite Hrun, Hout, Hfull.
    destruct (urljoin response link); split; reflexivity. }
  split; [|split].
  - intros link Htag Hne. apply truthy_str_true in Hne. apply Hlink.
    unfold usenix_full_pdf_url, usenix_pdf_link. rewrite Htag.
    cbn [Py.truthy negb]. rewrite Hne. cbn [negb if_truthy]. rewrite Hne. reflexivity.
  - intros link Htag Hfinal Hne. apply truthy_str_true in Hne. apply Hlink.
    unfold usenix_full_pdf_url, usenix_pdf_link. rewrite Htag, Hfinal.
    cbn [negb if_truthy]. rewrite Hne. reflexivity.
  - intros Htag Hfinal.
    assert (usenix_full_pdf_url response = inr "") as Hfull.
    { unfold usenix_full_pdf_url, usenix_pdf_link. rewrite Htag. cbn [negb].
      destruct (get (xpath response USENIX.final_paper_xpath)) as [l|];
        cbn [Py.truthy if_truthy] in *; [rewrite Hfinal|]; reflexivity. }
    unfold records. rewrite Hrun, Hout, Hfull.
    split; [reflexivity|]. split; [|reflexivity].
    unfold USENIX.parse_presentation, getitem. rewrite Ht, Ha, Hb, Hu, Htag.
    cbn [negb]. rewrite Hfinal. run_gen. rewrite Hfinal. run_gen.
    observe. reflexivity.
Qed.

(** X20. A request of the listing stage of Adapter C carries exactly four
    entries.  Its [abstract_url] entry is the detail link of its block
    joined with the page, and the URL it asks for is the escaped form of
    that joined link; so the record emitted on its detail page has the
    joined link as its [abstract_url], whatever URL the fetched page
    reports. *)
Theorem usenix_request_carries_its_url (self : Spider) (response : Response)
    (req : Request) :
  In req (requests (USENIX.parse self response)) ->
  req_callback req = usenix_parse_presentation /\
  req_dont_filter req = true /\
  dom (req_meta req) =
    ({["title"]} ∪ {["authors"]} ∪ {["abstract"]} ∪ {["abstract_url"]} : gset string) /\
  exists paper link joined,
    In paper (xpath response USENIX.paper_blocks_xpath) /\
    get (sel_xpath paper ".//h2/a/@href") = Some link /\
    urljoin response link = inr joined /\
    req_meta req !! "abstract_url" = Some (PyStr joined) /\
    safe_url joined = inr (req_url req) /\
    accepted_scheme (req_url req) = true /\
    forall (detail : Response) (i : PdfFilesItem),
      req_meta req ⊆ meta detail ->
      In i (records (USENIX.parse_presentation self detail)) ->
      abstract_url i = PyStr joined.
Proof.
  intros Hin. apply usenix_requests in Hin as (paper & link & Hpaper & Hlink & Hreq).
  apply block_request_inv in Hreq as (joined & Hjoin & Hstored & Hcb & Hmeta & Hdf).
  split; [exact Hcb|]. split; [exact Hdf|]. split.
  { rewrite Hmeta. unfold block_context.
    rewrite !dom_insert_L, dom_singleton_L. set_solver. }
  exists paper, link, joined.
  split; [exact Hpaper|]. split; [exact Hlink|]. split; [exact Hjoin|].
  split; [rewrite Hmeta; apply block_context_lookup|].
  unfold Request_url in Hstored.
  destruct (safe_url joined) as [e|stored]; [discriminate|].
  destruct (accepted_scheme stored) eqn:Hscheme; [|discriminate].
  injection Hstored as <-.
  split; [reflexivity|]. split; [exact Hscheme|].
  intros detail i Hsub Hi. rewrite Hmeta in Hsub.
  destruct (carried_record self detail paper joined Hsub) as [Hrun _].
  unfold records in Hi. rewrite Hrun in Hi.
  destruct (usenix_full_pdf_url detail); [destruct Hi|].
  destruct Hi as [<-|[]]. reflexivity.
Qed.

Lemma parse_block_counts (self : Spider) (response : Response) (paper : Selector) :
  length (requests (USENIX.parse_block self response paper)) <=
    (if has_link paper then 1 else 0) /\
  (outcome (USENIX.parse_block self response paper) = inr tt ->
   length (requests (USENIX.parse_block self response paper)) =
     (if has_link paper then 1 else 0) /\
   logged WARNING (USENIX.parse_block self response paper) =
     if has_link paper then []
     else ["No presentation URL found for paper: "
           +:+ Py.str_opt (get (sel_xpath paper ".//h2/a/text()"))]).
Proof.
  rewrite (parse_block_events self response paper). cbv zeta. unfold has_link.
  destruct (get (sel_xpath paper ".//h2/a/@href")) as [link|];
    cbn [Py.truthy if_truthy]; [destruct (Py.truthy_str link)|].
  - destruct (block_request response paper link) as [e|request].
    + split; [cbn; lia|]. discriminate.
    + split; [cbn; lia|]. intros _. split; reflexivity.
  - split; [cbn; lia|]. intros _. split; reflexivity.
  - split; [cbn; lia|]. intros _. split; reflexivity.
Qed.

Lemma for_each_counts (self : Spider) (response : Response) (papers : list Selector) :
  let loop := for_each papers (USENIX.parse_block self response) in
  length (requests loop) <= length (List.filter has_link papers) /\
  (outcome loop = inr tt ->
   length (requests loop) = length (List.filter has_link papers) /\
   logged WARNING loop =
     map (fun paper => "No presentation URL found for paper: "
                       +:+ Py.str_opt (get (sel_xpath paper ".//h2/a/text()")))
       (List.filter (fun paper => negb (has_link paper)) papers)).
Proof.
  cbv zeta. induction papers as [|paper papers [IHle IHeq]].
  - split; [cbn; lia|]. intros _. split; reflexivity.
  - destruct (parse_block_counts self response paper) as [Hle Heq].
    cbn [for_each List.filter].
    destruct (outcome (USENIX.parse_block self response paper)) as [e|[]] eqn:Hout.
    + rewrite (bind_raises _ _ e Hout). split; [|discriminate].
      change (requests (events ?g, inl e)) with (requests g).
      destruct (has_link paper); cbn [length]; lia.
    + destruct (Heq eq_refl) as [Hn Hw].
      assert (length (requests (bind (USENIX.parse_block self response paper)
                (fun _ => for_each papers (USENIX.parse_block self response)))) =
              length (requests (USENIX.parse_block self response paper)) +
              length (requests (for_each papers (USENIX.parse_block self response))))
        as Hlen.
      { unfold requests, yielded. rewrite (events_bind _ _ tt Hout).
        rewrite yielded_of_app, omap_app, length_app. reflexivity. }
      rewrite Hlen, Hn, (outcome_bind _ _ tt Hout). split.
      * destruct (has_link paper); cbn [length]; lia.
      * intros Hloop. destruct (IHeq Hloop) as [IHn IHw]. split.
        -- rewrite IHn. destruct (has_link paper); reflexivity.
        -- rewrite logged_events, (events_bind _ _ tt Hout), logged_of_app.
           rewrite <- !logged_events, Hw, IHw.
           destruct (has_link paper); reflexivity.
Qed.

(** X21. The listing stage of Adapter C yields at most one request per
    block that has a detail link.  When it returns, which it does unless the
    framework rejects a link, it has yielded exactly one request per block
    that has a detail link and logged one warning per block that has none,
    naming its title; on a page without blocks it yields nothing and logs
    the one warning that no paper was found. *)
Theorem usenix_listing_counts (self : Spider) (response : Response) :
  let papers := xpath response USENIX.paper_blocks_xpath in
  length (requests (USENIX.parse self response)) <= length (List.filter has_link papers) /\
  (outcome (USENIX.parse self response) = inr tt ->
   length (requests (USENIX.parse self response)) = length (List.filter has_link papers) /\
   logged WARNING (USENIX.parse self response) =
     match papers with
     | [] => ["No papers found! Checking page structure..."]
     | _ :: _ =>
         map (fun paper => "No presentation URL found for paper: "
                           +:+ Py.str_opt (get (sel_xpath paper ".//h2/a/text()")))
           (List.filter (fun paper => negb (has_link paper)) papers)
     end) /\
  (papers = [] ->
   yielded (USENIX.parse self response) = [] /\
   outcome (USENIX.parse self response) = inr tt).
Proof.
  cbv zeta.
  destruct (usenix_parse_loop self response) as [Hy Ho].
  destruct (usenix_parse_run self response) as [He _]. cbv zeta in He.
  destruct (for_each_counts self response (xpath response USENIX.paper_blocks_xpath))
    as [Hle Heq]. cbv zeta in Hle, Heq.
  assert (requests (USENIX.parse self response) =
          requests (for_each (xpath response USENIX.paper_blocks_xpath)
                      (USENIX.parse_block self response))) as Hreq.
  { unfold requests. rewrite Hy. reflexivity. }
  rewrite Hreq, Ho. split; [exact Hle|]. split.
  - intros Hout. destruct (Heq Hout) as [Hn Hw]. split; [exact Hn|].
    rewrite logged_events, He. rewrite !logged_of_log. cbn [same_level].
    destruct (xpath response USENIX.paper_blocks_xpath) as [|paper papers] eqn:Hpapers.
    + reflexivity.
    + cbn [length Nat.eqb app]. rewrite <- logged_events. exact Hw.
  - intros Hnil. rewrite Hy, Hnil. split; reflexivity.
Qed.

End Navigation.

(** ** The properties on the example pages *)

#[local] Existing Instances test_framework test_helpers.

(** Without carried context the detail handler of Adapter C does raise:
    the listing stage is what provides the four entries. *)
Example usenix_presentation_without_context :
  outcome (USENIX.parse_presentation usenix_2024 usenix_listing_page)
  = inl (KeyError "title").
Proof. reflexivity. Qed.

Lemma file_urls_iff_pdf_url_witness :
  In usenix_record_b (records (detail_stage AdapterC usenix_2024 usenix_detail_page))
  /\ files_consistent usenix_record_b.
Proof.
  assert (Hin : In usenix_record_b
                  (records (detail_stage AdapterC usenix_2024 usenix_detail_page))).
  { vm_compute. left. reflexivity. }
  split; [exact Hin|].
  exact (file_urls_iff_pdf_url AdapterC usenix_2024 usenix_detail_page
           usenix_record_b Hin).
Defined.

Lemma handlers_raise_only_in_framework_witness :
  outcome (USENIX.parse_presentation usenix_2024 usenix_detail_page) = inr tt /\
  outcome (NDSS.parse_paper_details ndss_2024 ndss_landing_page) = inr tt /\
  outcome (USENIX.parse usenix_2024 ndss_landing_page) = inr tt /\
  records (OSDI.parse_paper osdi_2023 ndss_landing_page) =
    [{| title := PyStr ""; authors := PyStr ""; abstract := PyStr "";
        abstract_url := PyStr (url ndss_landing_page); pdf_url := "";
        file_urls := [];
        source_url := PyStr (url ndss_landing_page) |}] /\
  outcome (OSDI.parse osdi_2023 osdi_page_script_link) =
    inl (ValueError
           "Missing scheme in request url: javascript:open('/presentation/alpha')") /\
  outcome (NDSS.parse_paper_details ndss_2024 ndss_page_bad_pdf) =
    inl (ValueError "Invalid IPv6 URL").
Proof.
  destruct (handlers_raise_only_in_framework usenix_2024 usenix_listing_page)
    as (_ & _ & _ & _ & _ & _ & _ & _ & Hdetail & _).
  destruct (handlers_raise_only_in_framework ndss_2024 ndss_landing_page)
    as (_ & _ & _ & _ & _ & _ & _ & _ & _ & Hndss).
  destruct (handlers_raise_only_in_framework usenix_2024 ndss_landing_page)
    as (_ & _ & _ & _ & _ & _ & _ & _ & _ & Husenix).
  destruct (handlers_raise_only_in_framework osdi_2023 ndss_landing_page)
    as (_ & _ & _ & _ & _ & _ & _ & _ & _ & Hblank).
  destruct (handlers_raise_only_in_framework osdi_2023 osdi_page_script_link)
    as (_ & _ & _ & _ & Hscript & _).
  destruct (handlers_raise_only_in_framework ndss_2024 ndss_page_bad_pdf)
    as (_ & _ & _ & Hpdf & _).
  split; [|split; [|split; [|split; [|split]]]].
  - rewrite (Hdetail
      {| req_url := "https://www.usenix.org/conference/usenixsecurity24/presentation/b";
         req_callback := usenix_parse_presentation;
         req_meta := meta usenix_detail_page;
         req_dont_filter := true |} usenix_detail_page).
    + reflexivity.
    + vm_compute. left. reflexivity.
    + reflexivity.
  - apply Hndss. intros q. reflexivity.
  - apply Husenix. intros q. reflexivity.
  - apply Hblank. intros q. reflexivity.
  - rewrite Hscript. reflexivity.
  - rewrite Hpdf. reflexivity.
Defined.


Lemma ndss_year_page_is_list_page_witness :
  xpath ndss_year_page NDSS.accepted_papers_xpath = [] /\
  length (requests (NDSS.parse_year_page ndss_2024 ndss_year_page)) = 2 /\
  yielded (NDSS.parse_year_page ndss_2024 ndss_year_page) =
    yielded (NDSS.parse_paper_list ndss_2024 ndss_year_page) /\
  outcome (NDSS.parse_year_page ndss_2024 ndss_year_page) =
    outcome (NDSS.parse_paper_list ndss_2024 ndss_year_page).
Proof.
  split; [reflexivity|]. split; [reflexivity|].
  exact (ndss_year_page_is_list_page ndss_2024 ndss_year_page eq_refl).
Defined.

Lemma ndss_title_witness :
  get (xpath ndss_page_paper NDSS.og_title_xpath)
    = Some ("Paper One " +:+ "- NDSS Symposium") /\
  map title (records (NDSS.parse_paper_details ndss_2024 ndss_page_paper))
    = [PyStr "Paper One"].
Proof.
  split; [reflexivity|].
  destruct (ndss_title ndss_2024 ndss_page_paper) as (_ & _ & Hsuffix).
  apply (Hsuffix "Paper One "); reflexivity.
Defined.

Lemma osdi_session_page_is_paper_page_witness :
  xpath osdi_page_alpha OSDI.presentation_links_xpath = [] /\
  requests (OSDI.parse osdi_2023 osdi_page_alpha) = [] /\
  map title (records (OSDI.parse osdi_2023 osdi_page_alpha)) = [PyStr "Alpha"] /\
  records (OSDI.parse osdi_2023 osdi_page_alpha) =
    records (OSDI.parse_paper osdi_2023 osdi_page_alpha).
Proof.
  split; [reflexivity|].
  destruct (osdi_session_page_is_paper_page osdi_2023 osdi_page_alpha eq_refl)
    as (Hreq & _ & Hrec & _ & _).
  split; [exact Hreq|]. split; [reflexivity|exact Hrec].
Defined.

Lemma usenix_listing_blocks_witness :
  yielded (USENIX.parse_block usenix_2024 usenix_listing_page usenix_block_plain) = [] /\
  yielded (USENIX.parse usenix_2024 usenix_listing_page) =
    yielded (for_each [usenix_block_linked]
               (USENIX.parse_block usenix_2024 usenix_listing_page)) /\
  exists req : Request,
    yielded (USENIX.parse_block usenix_2024 usenix_listing_page usenix_block_linked) =
      [OutRequest req] /\
    req_url req = "https://www.usenix.org/conference/usenixsecurity24/presentation/b" /\
    exists i : PdfFilesItem,
      yielded (USENIX.parse_presentation usenix_2024 usenix_detail_page) = [OutItem i] /\
      title i = PyStr "Paper B" /\
      authors i = PyStr "Alice A., Univ; Bob B." /\
      abstract i = PyStr "".
Proof.
  assert (block_request usenix_listing_page usenix_block_linked
            "/conference/usenixsecurity24/presentation/b" =
          inr {| req_url :=
                   "https://www.usenix.org/conference/usenixsecurity24/presentation/b";
                 req_callback := usenix_parse_presentation;
                 req_meta := meta usenix_detail_page;
                 req_dont_filter := true |}) as Hrequest
    by (vm_compute; reflexivity).
  assert (usenix_full_pdf_url usenix_detail_page =
          inr "https://www.usenix.org/system/files/usenixsecurity24-b.pdf") as Hpdf
    by (vm_compute; reflexivity).
  destruct (usenix_listing_blocks usenix_2024 usenix_listing_page) as (_ & Hblocks).
  destruct (Hblocks usenix_block_plain) as [Hplain _].
  destruct (Hblocks usenix_block_linked) as [_ Hlinked].
  destruct (Hplain eq_refl) as (Hnone & _ & Hskip).
  split; [exact Hnone|]. split.
  { apply (Hskip [] [usenix_block_linked]). reflexivity. }
  destruct (Hlinked "/conference/usenixsecurity24/presentation/b")
    as (Hreq & _ & Hdetail); [reflexivity|discriminate|reflexivity|].
  rewrite Hrequest in Hreq.
  eexists. split; [exact Hreq|]. split; [reflexivity|].
  destruct (Hdetail _ Hrequest) as (_ & _ & Hcarried).
  destruct (Hcarried usenix_detail_page) as [Hfields Hone]; [reflexivity|].
  destruct (Hone _ Hpdf) as (i & Hi & _ & _).
  exists i. split; [exact Hi|].
  apply Hfields. unfold records. rewrite Hi. left. reflexivity.
Defined.

Lemma init_requires_year_only_for_ndss_witness :
  NDSS.init None (Some "2024") = inr {| conference := "ndss"; year := "2024" |} /\
  NDSS.init None None =
    inl (ValueError "The 'year' argument is required. Usage: scrapy crawl ndss -a year=YYYY").
Proof.
  destruct (init_requires_year_only_for_ndss None (Some "2024")) as (_ & Hok & _).
  split; [apply Hok; discriminate|reflexivity].
Defined.

(** *** Further properties on the example pages *)

Lemma ndss_parse_follows_year_link_witness :
  requests (NDSS.parse ndss_2024 ndss_landing_with_year) =
    [{| req_url := "https://www.ndss-symposium.org/ndss2024/";
        req_callback := ndss_parse_year_page;
        req_meta := {["year" := PyStr "2024"]};
        req_dont_filter := false |}] /\
  outcome (NDSS.parse ndss_2024 ndss_landing_with_year) = inr tt.
Proof.
  destruct (ndss_parse_follows_year_link ndss_2024 ndss_landing_with_year
              "https://www.ndss-symposium.org/ndss2024/")
    as (_ & _ & _ & Haccepted); [reflexivity|reflexivity|discriminate|].
  destruct (Haccepted "https://www.ndss-symposium.org/ndss2024/"
              "https://www.ndss-symposium.org/ndss2024/" eq_refl eq_refl eq_refl)
    as [Hy Ho].
  split; [|exact Ho]. unfold requests. rewrite Hy. reflexivity.
Defined.

Lemma ndss_parse_empty_first_link_witness :
  yielded (NDSS.parse ndss_2024 ndss_landing_empty_link) = [] /\
  logged ERROR (NDSS.parse ndss_2024 ndss_landing_empty_link) =
    ["Could not find a link for the year 2024 on the main page."].
Proof.
  destruct (ndss_parse_empty_first_link ndss_2024 ndss_landing_empty_link
              (leaf "") [leaf "https://www.ndss-symposium.org/ndss2024/"])
    as (Hy & He & _); [reflexivity|reflexivity|].
  split; [exact Hy|exact He].
Defined.

Lemma ndss_no_silent_end_witness :
  yielded (NDSS.parse ndss_2024 ndss_landing_page) = [] /\
  outcome (NDSS.parse ndss_2024 ndss_landing_page) = inr tt.
Proof.
  destruct (ndss_no_silent_end ndss_2024 ndss_landing_page) as ((Herror & _) & _).
  apply Herror. discriminate.
Defined.

Lemma ndss_paper_list_primary_first_witness :
  map req_url (requests (NDSS.parse_paper_list ndss_2024 ndss_year_page)) =
    ["https://www.ndss-symposium.org/ndss-paper/one/";
     "https://www.ndss-symposium.org/ndss-paper/two/"] /\
  map req_url (requests (NDSS.parse_paper_list ndss_2024 ndss_list_page_mail_link)) =
    ["https://www.ndss-symposium.org/ndss-paper/one/"] /\
  outcome (NDSS.parse_paper_list ndss_2024 ndss_list_page_mail_link) =
    inl (ValueError "Missing scheme in request url: mailto:chairs@ndss-symposium.org").
Proof.
  destruct (ndss_paper_list_primary_first ndss_2024 ndss_year_page) as (Hp & _).
  destruct (ndss_paper_list_primary_first ndss_2024 ndss_list_page_mail_link)
    as (Hm & _).
  cbv zeta in Hp, Hm.
  destruct Hp as [Hp _]; [discriminate|].
  destruct Hm as [Hm Ho]; [discriminate|].
  rewrite Hp, Hm, Ho. repeat split.
Defined.

Lemma ndss_year_page_follows_link_witness :
  map (fun o => match o with
                | OutRequest r => req_url r
                | OutItem _ => ""
                end) (yielded (NDSS.parse_year_page ndss_2024 ndss_year_page_with_link)) =
    ["https://www.ndss-symposium.org/ndss2024/accepted-papers/"].
Proof.
  destruct (ndss_year_page_follows_link ndss_2024 ndss_year_page_with_link
              "https://www.ndss-symposium.org/ndss2024/accepted-papers/")
    as (Hy & _); [reflexivity|discriminate|].
  rewrite Hy. reflexivity.
Defined.

Lemma ndss_context_forwarded_witness :
  req_meta {| req_url := "https://www.ndss-symposium.org/ndss-paper/one/";
              req_callback := ndss_parse_paper_details;
              req_meta := {["year" := PyStr "2024"]};
              req_dont_filter := false |}
  = meta ndss_year_page.
Proof.
  apply (ndss_context_forwarded ndss_2024 ndss_year_page).
  right. vm_compute. left. reflexivity.
Defined.

Lemma osdi_parse_fans_out_witness :
  map req_url (requests (OSDI.parse osdi_2023 osdi_session_page)) =
    ["https://www.usenix.org/conference/osdi23/presentation/alpha";
     "https://www.usenix.org/conference/osdi23/presentation/beta";
     "https://www.usenix.org/conference/osdi23/presentation/alpha"] /\
  outcome (OSDI.parse osdi_2023 osdi_session_page) = inr tt /\
  records (OSDI.parse osdi_2023 osdi_session_page) = [].
Proof.
  destruct (osdi_parse_fans_out osdi_2023 osdi_session_page)
    as (Hreq & Ho & Hrec & _); [discriminate|].
  rewrite Hreq, Ho. split; [reflexivity|]. split; [reflexivity|exact Hrec].
Defined.

Lemma osdi_authors_joined_witness :
  map authors (records (OSDI.parse_paper osdi_2023 osdi_session_page)) =
    [PyStr "Alice A., Bob B."].
Proof.
  destruct (osdi_authors_joined osdi_2023 osdi_session_page) as (_ & _ & _ & Htwo).
  exact (Htwo "Alice A." "Bob B." eq_refl).
Defined.

Lemma stage_increases_witness :
  stage usenix_parse < stage usenix_parse_presentation /\
  stage ndss_parse_year_page < stage ndss_parse_paper_details.
Proof.
  split.
  - apply (stage_increases usenix_parse usenix_2024 usenix_listing_page
             {| req_url :=
                  "https://www.usenix.org/conference/usenixsecurity24/presentation/b";
                req_callback := usenix_parse_presentation;
                req_meta := meta usenix_detail_page;
                req_dont_filter := true |}).
    vm_compute. left. reflexivity.
  - apply (stage_increases ndss_parse_year_page ndss_2024 ndss_year_page
             {| req_url := "https://www.ndss-symposium.org/ndss-paper/one/";
                req_callback := ndss_parse_paper_details;
                req_meta := {["year" := PyStr "2024"]};
                req_dont_filter := false |}).
    vm_compute. left. reflexivity.
Defined.

Lemma records_only_at_detail_stages_witness :
  length (records (NDSS.parse_paper_details ndss_2024 ndss_page_full)) = 1 /\
  length (records (NDSS.parse_paper_details ndss_2024 ndss_page_bad_pdf)) = 0.
Proof.
  destruct (records_only_at_detail_stages ndss_2024 ndss_page_full)
    as (_ & _ & _ & _ & _ & _ & _ & Hfull & _).
  destruct (records_only_at_detail_stages ndss_2024 ndss_page_bad_pdf)
    as (_ & _ & _ & _ & _ & _ & _ & Hbad & _).
  split; [exact Hfull|exact Hbad].
Defined.

Lemma source_url_tells_adapter_witness :
  In usenix_record_b (records (detail_stage AdapterC usenix_2024 usenix_detail_page)) /\
  (forall j,
     In j (records (detail_stage AdapterA ndss_2024 ndss_page_paper)) ->
     source_url usenix_record_b <> source_url j).
Proof.
  assert (Hin : In usenix_record_b
                  (records (detail_stage AdapterC usenix_2024 usenix_detail_page))).
  { vm_compute. left. reflexivity. }
  split; [exact Hin|].
  intros j Hj Heq.
  pose proof (source_url_tells_adapter AdapterC AdapterA usenix_2024 ndss_2024
                usenix_detail_page ndss_page_paper usenix_record_b j Hin Hj Heq)
    as Hab.
  discriminate Hab.
Defined.

Lemma test_urljoin_absolute (response : Response) (link joined : string) :
  urljoin response link = inr joined -> is_absolute joined = true.
Proof.
  cbn [urljoin test_framework].
  destruct (Py.contains "[" link && negb (Py.contains "]" link)); [discriminate|].
  destruct (is_absolute link) eqn:Hlink; intros [= <-].
  - exact Hlink.
  - reflexivity.
Defined.

Lemma pdf_url_absolute_when_joined_witness :
  is_absolute (pdf_url usenix_record_b) = true.
Proof.
  destruct (pdf_url_absolute_when_joined AdapterC usenix_2024 usenix_detail_page
              usenix_record_b) as [Hempty|Habs].
  - discriminate.
  - apply test_urljoin_absolute.
  - vm_compute. left. reflexivity.
  - discriminate Hempty.
  - exact Habs.
Defined.

Lemma ndss_authors_gate_witness :
  map authors (records (NDSS.parse_paper_details ndss_2024 ndss_page_full)) =
    [PyStr "Alice A. (Univ A), Bob B. (Univ B)"].
Proof.
  destruct (ndss_authors_gate ndss_2024 ndss_page_full) as (Hbold & _).
  exact (Hbold " Alice A. (Univ A), Bob B. (Univ B) " eq_refl eq_refl).
Defined.

Lemma ndss_authors_stripped_witness :
  exists a,
    map authors (records (NDSS.parse_paper_details ndss_2024 ndss_page_full)) = [PyStr a]
    /\ Py.strip a = a.
Proof.
  destruct (ndss_authors_stripped ndss_2024 ndss_page_full
              {| title := PyStr "Paper One";
                 authors := PyStr "Alice A. (Univ A), Bob B. (Univ B)";
                 abstract := PyStr "First part. Second part.";
                 abstract_url := PyStr "https://www.ndss-symposium.org/ndss-paper/one/";
                 pdf_url := "https://www.ndss-symposium.org/wp-content/uploads/one.pdf";
                 file_urls := ["https://www.ndss-symposium.org/wp-content/uploads/one.pdf"];
                 source_url := PyInt 13 |})
    as (a & Ha & Hstrip).
  - vm_compute. left. reflexivity.
  - exists a. split; [|exact Hstrip].
    cbn [authors] in Ha. injection Ha as <-. reflexivity.
Defined.

Lemma ndss_title_without_venue_text_witness :
  map title (records (NDSS.parse_paper_details ndss_2024 ndss_page_full)) =
    [PyStr "Paper One"].
Proof.
  rewrite (ndss_title_without_venue_text ndss_2024 ndss_page_full " Paper One ");
    [reflexivity|reflexivity|discriminate|reflexivity].
Defined.

Lemma ndss_abstract_priority_witness :
  map abstract (records (NDSS.parse_paper_details ndss_2024 ndss_page_full)) =
    [PyStr "First part. Second part."].
Proof.
  destruct (ndss_abstract_priority ndss_2024 ndss_page_full) as (Hbold & _).
  cbv zeta in Hbold. rewrite Hbold; [reflexivity|discriminate].
Defined.

Lemma ndss_pdf_sources_witness :
  map pdf_url (records (NDSS.parse_paper_details ndss_2024 ndss_page_full)) =
    ["https://www.ndss-symposium.org/wp-content/uploads/one.pdf"] /\
  map pdf_url (records (NDSS.parse_paper_details ndss_2024 ndss_page_bad_pdf)) = [] /\
  outcome (NDSS.parse_paper_details ndss_2024 ndss_page_bad_pdf) =
    inl (ValueError "Invalid IPv6 URL").
Proof.
  destruct (ndss_pdf_sources ndss_2024 ndss_page_full) as (Hbutton & _ & _).
  destruct (ndss_pdf_sources ndss_2024 ndss_page_bad_pdf) as (Hbad & _ & _).
  destruct (Hbutton "https://www.ndss-symposium.org/wp-content/uploads/one.pdf"
              eq_refl ltac:(discriminate)) as [Hfull _].
  destruct (Hbad "http://[" eq_refl ltac:(discriminate)) as [Hnone Hraise].
  split; [exact Hfull|]. split; [exact Hnone|exact Hraise].
Defined.

Lemma usenix_pdf_sources_witness :
  map pdf_url (records (USENIX.parse_presentation usenix_2024 usenix_detail_page)) =
    ["https://www.usenix.org/system/files/usenixsecurity24-b.pdf"] /\
  map pdf_url (records (USENIX.parse_presentation usenix_2024 usenix_detail_page_no_pdf)) =
    [""] /\
  logged WARNING (USENIX.parse_presentation usenix_2024 usenix_detail_page_no_pdf) =
    ["No PDF URL found for: https://www.usenix.org/conference/usenixsecurity24/presentation/b"].
Proof.
  destruct (usenix_pdf_sources usenix_2024 usenix_detail_page
              (PyStr "Paper B") (PyStr "Alice A., Univ; Bob B.") (PyStr "")
              (PyStr "https://www.usenix.org/conference/usenixsecurity24/presentation/b")
              eq_refl eq_refl eq_refl eq_refl) as (Htag & _ & _).
  destruct (usenix_pdf_sources usenix_2024 usenix_detail_page_no_pdf
              (PyStr "Paper B") (PyStr "Alice A., Univ; Bob B.") (PyStr "")
              (PyStr "https://www.usenix.org/conference/usenixsecurity24/presentation/b")
              eq_refl eq_refl eq_refl eq_refl) as (_ & _ & Hnone).
  destruct (Hnone eq_refl eq_refl) as (Hrec & Hlog & _).
  destruct (Htag "/system/files/usenixsecurity24-b.pdf" eq_refl ltac:(discriminate))
    as [Hpdf _].
  split; [exact Hpdf|]. split; [rewrite Hrec; reflexivity|exact Hlog].
Defined.

Lemma usenix_request_carries_its_url_witness :
  abstract_url usenix_record_b =
    PyStr "https://www.usenix.org/conference/usenixsecurity24/presentation/b".
Proof.
  destruct (usenix_request_carries_its_url usenix_2024 usenix_listing_page
              {| req_url :=
                   "https://www.usenix.org/conference/usenixsecurity24/presentation/b";
                 req_callback := usenix_parse_presentation;
                 req_meta := meta usenix_detail_page;
                 req_dont_filter := true |})
    as (_ & _ & _ & paper & link & joined & _ & _ & _ & Hentry & _ & _ & Hrecord).
  - vm_compute. left. reflexivity.
  - rewrite (Hrecord usenix_detail_page usenix_record_b).
    + vm_compute in Hentry. injection Hentry as <-. reflexivity.
    + reflexivity.
    + vm_compute. left. reflexivity.
Defined.

Lemma usenix_listing_counts_witness :
  length (requests (USENIX.parse usenix_2024 usenix_listing_page)) = 1 /\
  logged WARNING (USENIX.parse usenix_2024 usenix_listing_page) =
    ["No presentation URL found for paper: Paper A"] /\
  length (requests (USENIX.parse usenix_2024 usenix_listing_page_script)) <= 2.
Proof.
  destruct (usenix_listing_counts usenix_2024 usenix_listing_page) as (_ & Hreturns & _).
  destruct (usenix_listing_counts usenix_2024 usenix_listing_page_script) as (Hle & _).
  destruct (Hreturns eq_refl) as [Hn Hw].
  split; [exact Hn|]. split; [exact Hw|exact Hle].
Defined.

